(** * Tuple dashboard: client-side page logic

    A shallow embedding of the React page handlers and render functions of
    the Tuple web dashboard (data sources, SQL explorer, insights,
    integrations), of the zustand data-source store and of the integration
    section of the axios API client, together with the properties the
    specification states about them.

    Conventions.
    - Values that reach the pages from [response.json()] or are typed [any]
      in the TypeScript source are modelled as untyped JavaScript values
      ([Js.value]); nothing in the source validates them.
    - An event handler is a computation in a small writer/exception monad
      ([Eff]): it emits, in program order, the state updates it requests
      ([Update]), the requests it sends ([Fetch]) and the notifications it
      raises, and it may throw.  What the outside world answers (responses,
      the clock) is an explicit argument of the handler.
    - A [string] holds the UTF-8 encoding of a (well-formed) JavaScript
      string, so that every character of the source is representable; the
      built-ins below that depend on code points (white space, [length])
      decode it.  Numbers are the integers and the two infinities. *)

From Stdlib Require Import String Ascii List ZArith Bool Lia DecimalString DecimalPos.
Import ListNotations.
Local Open Scope string_scope.

(* ===================================================================== *)
(** ** JavaScript values and the built-in operations the pages use *)
(* ===================================================================== *)

Module Js.

#[warnings="-register-all"]
Inductive value : Type :=
| Undefined
| Null
| Bool (b : bool)
| Num (n : Z)
| Inf (negative : bool)          (* [Infinity] and [-Infinity] *)
| Str (s : string)
| Arr (elems : list value)
| Obj (fields : list (string * value)).

(** What a [throw] carries: an [Error] instance (of any subclass) with its
    message, or some other value. *)
Inductive thrown : Type :=
| ErrorExn (message : string)
| OtherExn (v : value).

Definition result (A : Type) : Type := (thrown + A)%type.

(** ToBoolean. *)
Definition truthy (v : value) : bool :=
  match v with
  | Undefined | Null => false
  | Bool b => b
  | Num n => negb (n =? 0)%Z
  | Str s => negb (s =? "")
  | Inf _ | Arr _ | Obj _ => true
  end.

(** [a || b] on already evaluated operands. *)
Definition or_else (a b : value) : value := if truthy a then a else b.

Definition typeof (v : value) : string :=
  match v with
  | Undefined => "undefined"
  | Null | Arr _ | Obj _ => "object"
  | Bool _ => "boolean"
  | Num _ | Inf _ => "number"
  | Str _ => "string"
  end.

(** [a === b]; two distinct parsed objects or arrays are never identical. *)
Definition strict_eq (a b : value) : bool :=
  match a, b with
  | Undefined, Undefined | Null, Null => true
  | Bool x, Bool y => Bool.eqb x y
  | Num x, Num y => (x =? y)%Z
  | Inf x, Inf y => Bool.eqb x y
  | Str x, Str y => (x =? y)
  | _, _ => false
  end.

(** An own property of an object built by [JSON.parse]: when a key is
    repeated the last occurrence wins. *)
Definition lookup (k : string) (fs : list (string * value)) : value :=
  fold_left (fun acc kv => if fst kv =? k then snd kv else acc) fs Undefined.

(** Message of the TypeError raised by reading a property of [null] or
    [undefined] (V8 wording). *)
Definition type_error_message (v : value) (k : string) : string :=
  "Cannot read properties of " ++
  (match v with Null => "null" | _ => "undefined" end) ++
  " (reading '" ++ k ++ "')".

(** [s.length]: the number of UTF-16 code units of the string [s] encodes
    (a continuation byte counts for nothing, a four-byte sequence for two). *)
Fixpoint length (s : string) : nat :=
  match s with
  | EmptyString => 0
  | String c rest =>
      let b := N_of_ascii c in
      (if (b <? 128)%N then 1          (* one byte *)
       else if (b <? 192)%N then 0     (* continuation *)
       else if (b <? 240)%N then 1     (* lead of two or three bytes *)
       else 2)                         (* lead of four bytes: a surrogate pair *)
      + length rest
  end.

(** [v.k].  The pages only read the names [detail], [message], [columns],
    [rows], [length], [name], [label], [value], [change], [unit] and the
    fields of insight items; of these only [length] exists on arrays and
    strings, and none on numbers and booleans. *)
Definition get_prop (v : value) (k : string) : result value :=
  match v with
  | Undefined | Null => inl (ErrorExn (type_error_message v k))
  | Obj fs => inr (lookup k fs)
  | Arr l => inr (if k =? "length" then Num (Z.of_nat (List.length l)) else Undefined)
  | Str s => inr (if k =? "length" then Num (Z.of_nat (length s)) else Undefined)
  | Bool _ | Num _ | Inf _ => inr Undefined
  end.

(** [v?.k]. *)
Definition opt_prop (v : value) (k : string) : value :=
  match v with
  | Undefined | Null => Undefined
  | _ => match get_prop v k with inr x => x | inl _ => Undefined end
  end.

Definition string_of_Z (n : Z) : string := NilZero.string_of_int (Z.to_int n).

(** ToString (also what a template literal applies). *)
Fixpoint toString (v : value) : string :=
  match v with
  | Undefined => "undefined"
  | Null => "null"
  | Bool true => "true"
  | Bool false => "false"
  | Num n => string_of_Z n
  | Inf false => "Infinity"
  | Inf true => "-Infinity"
  | Str s => s
  | Arr l =>
      (fix join (l : list value) : string :=
         match l with
         | [] => ""
         | x :: rest =>
             let sx := match x with Undefined | Null => "" | _ => toString x end in
             match rest with
             | [] => sx
             | _ :: _ => sx ++ "," ++ join rest
             end
         end) l
  | Obj _ => "[object Object]"
  end.

(** [new Error(m).message]. *)
Definition new_Error (m : value) : thrown :=
  ErrorExn (match m with Undefined => "" | _ => toString m end).

(** [e instanceof Error ? e.message : fallback]. *)
Definition message_or (e : thrown) (fallback : string) : string :=
  match e with
  | ErrorExn m => m
  | OtherExn _ => fallback
  end.

(** White space as [trim] and [parseInt] see it (WhiteSpace and
    LineTerminator of the language): the code points U+0009 to U+000D,
    U+0020, U+00A0, U+1680, U+2000 to U+200A, U+2028, U+2029, U+202F,
    U+205F, U+3000 and U+FEFF, here by their encodings of one, two and
    three bytes. *)
Definition is_whitespace1 (c : ascii) : bool :=
  let n := nat_of_ascii c in
  ((9 <=? n) && (n <=? 13) || (n =? 32))%nat.

Definition is_whitespace2 (c1 c2 : ascii) : bool :=
  ((N_of_ascii c1 =? 194) && (N_of_ascii c2 =? 160))%N.

Definition is_whitespace3 (c1 c2 c3 : ascii) : bool :=
  let b2 := N_of_ascii c2 in
  let b3 := N_of_ascii c3 in
  (if N_of_ascii c1 =? 225 then (b2 =? 154) && (b3 =? 128)
   else if N_of_ascii c1 =? 226 then
     ((b2 =? 128)
      && (((128 <=? b3) && (b3 <=? 138)) || (b3 =? 168) || (b3 =? 169) || (b3 =? 175)))
     || ((b2 =? 129) && (b3 =? 159))
   else if N_of_ascii c1 =? 227 then (b2 =? 128) && (b3 =? 128)
   else if N_of_ascii c1 =? 239 then (b2 =? 187) && (b3 =? 191)
   else false)%N.

(** U+00A0 (no-break space), U+3000 (ideographic space) and U+200B (zero
    width space, which is not white space), as encoded. *)
Definition nbsp : string := String (ascii_of_N 194) (String (ascii_of_N 160) "").

Definition ideographic_space : string :=
  String (ascii_of_N 227) (String (ascii_of_N 128) (String (ascii_of_N 128) "")).

Definition zero_width_space : string :=
  String (ascii_of_N 226) (String (ascii_of_N 128) (String (ascii_of_N 139) "")).

(** [s.trimStart()]: drops the leading white space. *)
Fixpoint trimStart (s : string) : string :=
  match s with
  | EmptyString => EmptyString
  | String c1 r1 =>
      if is_whitespace1 c1 then trimStart r1
      else match r1 with
           | EmptyString => s
           | String c2 r2 =>
               if is_whitespace2 c1 c2 then trimStart r2
               else match r2 with
                    | EmptyString => s
                    | String c3 r3 =>
                        if is_whitespace3 c1 c2 c3 then trimStart r3 else s
                    end
           end
  end.

(** The string consists of white space only. *)
Fixpoint all_whitespace (s : string) : bool :=
  match s with
  | EmptyString => true
  | String c1 r1 =>
      if is_whitespace1 c1 then all_whitespace r1
      else match r1 with
           | EmptyString => false
           | String c2 r2 =>
               if is_whitespace2 c1 c2 then all_whitespace r2
               else match r2 with
                    | EmptyString => false
                    | String c3 r3 => is_whitespace3 c1 c2 c3 && all_whitespace r3
                    end
           end
  end.

(** [s.trimEnd()]: drops the trailing white space, that is, the longest
    suffix made of white space only. *)
Fixpoint trimEnd (s : string) : string :=
  match s with
  | EmptyString => EmptyString
  | String c rest =>
      if all_whitespace (String c rest) then EmptyString else String c (trimEnd rest)
  end.

(** [s.trim()]. *)
Definition trim (s : string) : string := trimEnd (trimStart s).

(** The Number value of an integer: the nearest double, ties to the even
    one, and an infinity from 2^1024 on. *)
Definition to_number (n : Z) : value :=
  let a := Z.abs n in
  if (a <? 2 ^ 53)%Z then Num n
  else
    let k := (Z.log2 a - 52)%Z in
    let q := (a / 2 ^ k)%Z in
    let r := (a mod 2 ^ k)%Z in
    let half := (2 ^ (k - 1))%Z in
    let q' := if (half <? r)%Z || ((r =? half)%Z && Z.odd q) then (q + 1)%Z else q in
    let m := (q' * 2 ^ k)%Z in
    if (2 ^ 1024 <=? m)%Z then Inf (n <? 0)%Z else Num (Z.sgn n * m).

(** [s.includes(sub)]: [sub] occurs in [s].  Between well-formed strings
    an occurrence of the encoded bytes is an occurrence of the code units,
    and conversely. *)
Fixpoint includes (s sub : string) : bool :=
  if String.prefix sub s then true
  else match s with
       | EmptyString => false
       | String _ rest => includes rest sub
       end.

End Js.

(* ===================================================================== *)
(** ** Handlers as effectful computations *)
(* ===================================================================== *)

(** A request as passed to [fetch] or to the axios instance; [body] is the
    value handed to [JSON.stringify] (axios serialises it the same way). *)
Record Request : Type := mkRequest {
  method : string;
  url : string;
  body : option Js.value
}.

(** What awaiting a [fetch] and then [response.json()] yields. *)
Inductive FetchOutcome : Type :=
| NetworkFailure (e : Js.thrown)
| Response (ok : bool) (json : Js.result Js.value).

Inductive Action (Setter : Type) : Type :=
| Update (s : Setter)
| Fetch (r : Request)
| Sleep (ms : Z)
| ToastError (msg : Js.value)      (* the argument of [toast.error] *)
| ToastSuccess (msg : string)
| ConsoleError (label : string) (e : Js.thrown).

Arguments Update {Setter} s.
Arguments Fetch {Setter} r.
Arguments Sleep {Setter} ms.
Arguments ToastError {Setter} msg.
Arguments ToastSuccess {Setter} msg.
Arguments ConsoleError {Setter} label e.

Section Eff.
Context {Setter : Type}.

(** The actions performed so far, and either the value computed or what
    was thrown. *)
Definition Eff (A : Type) : Type := (list (Action Setter) * Js.result A)%type.

Definition ret {A} (a : A) : Eff A := ([], inr a).

Definition bind {A B} (m : Eff A) (f : A -> Eff B) : Eff B :=
  match m with
  | (l, inl e) => (l, inl e)
  | (l, inr a) => let (l', r) := f a in ((l ++ l')%list, r)
  end.

Definition throw {A} (e : Js.thrown) : Eff A := ([], inl e).

Definition lift {A} (r : Js.result A) : Eff A := ([], r).

Definition emit (a : Action Setter) : Eff unit := ([a], inr tt).

(** [try { body } catch (e) { handler e }]. *)
Definition try_catch {A} (body : Eff A) (handler : Js.thrown -> Eff A) : Eff A :=
  match body with
  | (l, inl e) => let (l', r) := handler e in ((l ++ l')%list, r)
  | (l, inr a) => (l, inr a)
  end.

(** [try { body } finally { fin }]. *)
Definition finally {A} (body : Eff A) (fin : Eff unit) : Eff A :=
  let (l, r) := body in
  let (l', r') := fin in
  ((l ++ l')%list, match r' with inl e => inl e | inr _ => r end).

(** [await fetch(...)] followed by the test of [response.ok]. *)
Definition await_fetch (r : Request) (o : FetchOutcome) : Eff (bool * Js.result Js.value) :=
  bind (emit (Fetch r))
       (fun _ => match o with
                 | NetworkFailure e => throw e
                 | Response ok json => ret (ok, json)
                 end).

Definition actions {A} (m : Eff A) : list (Action Setter) := fst m.

(** The requests among a handler's actions. *)
Fixpoint requests (l : list (Action Setter)) : list Request :=
  match l with
  | [] => []
  | Fetch r :: rest => r :: requests rest
  | _ :: rest => requests rest
  end.

Fixpoint error_toasts (l : list (Action Setter)) : list Js.value :=
  match l with
  | [] => []
  | ToastError m :: rest => m :: error_toasts rest
  | _ :: rest => error_toasts rest
  end.

Fixpoint success_toasts (l : list (Action Setter)) : list string :=
  match l with
  | [] => []
  | ToastSuccess m :: rest => m :: success_toasts rest
  | _ :: rest => success_toasts rest
  end.

(** The component state once React has applied the requested updates in
    order. *)
Definition run {S : Type} (apply : Setter -> S -> S) (st : S)
           (l : list (Action Setter)) : S :=
  fold_left (fun s a => match a with Update u => apply u s | _ => s end) l st.
End Eff.

Declare Scope eff_scope.
Delimit Scope eff_scope with eff.
Notation "x <- m ;; k" := (bind m (fun x => k))
  (at level 61, m at next level, right associativity) : eff_scope.
Notation "m ;; k" := (bind m (fun _ => k))
  (at level 61, right associativity) : eff_scope.

(** [a.map(f)] for a value [a] written [expr] in the source. *)
Definition array_map {B} (expr : string) (a : Js.value)
           (f : Js.value -> Js.result B) : Js.result (list B) :=
  match a with
  | Js.Arr l =>
      fold_right (fun x acc =>
                    match f x, acc with
                    | inl e, _ => inl e
                    | inr y, inr ys => inr (y :: ys)
                    | inr _, inl e => inl e
                    end) (inr []) l
  | Js.Undefined | Js.Null => inl (Js.ErrorExn (Js.type_error_message a "map"))
  | _ => inl (Js.ErrorExn (expr ++ ".map is not a function"))
  end.

(** The text React puts in the document for a child expression [{v}]. *)
Fixpoint render_child (v : Js.value) : Js.result string :=
  match v with
  | Js.Undefined | Js.Null | Js.Bool _ => inr ""
  | Js.Num n => inr (Js.string_of_Z n)
  | Js.Inf _ => inr (Js.toString v)
  | Js.Str s => inr s
  | Js.Arr l =>
      (fix children (l : list Js.value) : Js.result string :=
         match l with
         | [] => inr ""
         | x :: rest =>
             match render_child x with
             | inl e => inl e
             | inr sx => match children rest with
                         | inl e => inl e
                         | inr sr => inr (sx ++ sr)
                         end
             end
         end) l
  | Js.Obj _ => inl (Js.ErrorExn "Objects are not valid as a React child")
  end.

(* ===================================================================== *)
(** ** SQL explorer page ([explorer/page.tsx], [ExplorerPage]) *)
(* ===================================================================== *)

Module Explorer.

Local Open Scope eff_scope.

Record TableColumn : Type := {
  tc_name : string;
  tc_type : string
}.

Record TableSchema : Type := {
  ts_name : string;
  ts_columns : list TableColumn;
  ts_row_count : option Z
}.

Record DataSourceWithSchema : Type := {
  ds_id : string;
  ds_name : string;
  ds_type : string;
  ds_tables : list TableSchema
}.

(** The [useState] cells of the component.  [columns] and [results] hold
    whatever the backend sent ([result.columns], [result.rows]). *)
Record State : Type := mkState {
  dataSources : list DataSourceWithSchema;
  selectedDataSource : string;
  selectedTable : string;
  query : string;
  isExecuting : bool;
  columns : Js.value;
  results : Js.value;
  executionTime : option Z;
  isLoading : bool
}.

Definition initial : State :=
  {| dataSources := []; selectedDataSource := ""; selectedTable := "";
     query := ""; isExecuting := false; columns := Js.Arr [];
     results := Js.Null; executionTime := None; isLoading := true |}.

Inductive Setter : Type :=
| SetSelectedTable (t : string)
| SetQuery (q : string)
| SetIsExecuting (b : bool)
| SetColumns (c : Js.value)
| SetResults (r : Js.value)
| SetExecutionTime (ms : Z).

Definition apply (u : Setter) (st : State) : State :=
  match u with
  | SetSelectedTable t =>
      mkState (dataSources st) (selectedDataSource st) t (query st)
              (isExecuting st) (columns st) (results st) (executionTime st) (isLoading st)
  | SetQuery q =>
      mkState (dataSources st) (selectedDataSource st) (selectedTable st) q
              (isExecuting st) (columns st) (results st) (executionTime st) (isLoading st)
  | SetIsExecuting b =>
      mkState (dataSources st) (selectedDataSource st) (selectedTable st) (query st)
              b (columns st) (results st) (executionTime st) (isLoading st)
  | SetColumns c =>
      mkState (dataSources st) (selectedDataSource st) (selectedTable st) (query st)
              (isExecuting st) c (results st) (executionTime st) (isLoading st)
  | SetResults r =>
      mkState (dataSources st) (selectedDataSource st) (selectedTable st) (query st)
              (isExecuting st) (columns st) r (executionTime st) (isLoading st)
  | SetExecutionTime ms =>
      mkState (dataSources st) (selectedDataSource st) (selectedTable st) (query st)
              (isExecuting st) (columns st) (results st) (Some ms) (isLoading st)
  end.

Definition query_url (id : string) : string :=
  "http://localhost:8000/api/v1/datasources/" ++ id ++ "/query".

(** The request [handleExecuteQuery] sends. *)
Definition query_request (st : State) : Request :=
  mkRequest "POST" (query_url (selectedDataSource st))
            (Some (Js.Obj [("query", Js.Str (Js.trim (query st)))])).

Section Handlers.
(** [JSON.stringify] on a value other than [undefined]: the JSON text. *)
Variable json_text : Js.value -> string.

Definition JSON_stringify (v : Js.value) : Js.value :=
  match v with
  | Js.Undefined => Js.Undefined
  | _ => Js.Str (json_text v)
  end.

(** The message built from the body of a non-success response:
    [typeof error.detail === 'string' ? error.detail
     : (error.detail?.message || error.message
        || JSON.stringify(error.detail) || "Query execution failed")]. *)
Definition errorMessage (error : Js.value) : Js.result Js.value :=
  match Js.get_prop error "detail" with
  | inl e => inl e
  | inr detail =>
      if Js.typeof detail =? "string" then inr detail
      else
        let m1 := Js.opt_prop detail "message" in
        if Js.truthy m1 then inr m1
        else
          match Js.get_prop error "message" with
          | inl e => inl e
          | inr m2 =>
              if Js.truthy m2 then inr m2
              else inr (Js.or_else (JSON_stringify detail)
                                   (Js.Str "Query execution failed"))
          end
  end.

(** [handleExecuteQuery]; [net] is what the request resolves to,
    [startTime] and [endTime] the two readings of [Date.now()]. *)
Definition handleExecuteQuery (st : State) (net : FetchOutcome)
           (startTime endTime : Z) : Eff (Setter := Setter) unit :=
  if negb (Js.truthy (Js.Str (Js.trim (query st))))
     || negb (Js.truthy (Js.Str (selectedDataSource st)))
  then ret tt
  else
    emit (Update (SetIsExecuting true)) ;;
    finally
      (try_catch
         (resp <- await_fetch (query_request st) net ;;
          if negb (fst resp) then
            error <- lift (snd resp) ;;
            msg <- lift (errorMessage error) ;;
            throw (Js.new_Error msg)
          else
            result <- lift (snd resp) ;;
            cols <- lift (Js.get_prop result "columns") ;;
            emit (Update (SetColumns (Js.or_else cols (Js.Arr [])))) ;;
            rows <- lift (Js.get_prop result "rows") ;;
            emit (Update (SetResults (Js.or_else rows (Js.Arr [])))) ;;
            emit (Update (SetExecutionTime (endTime - startTime))) ;;
            emit (ToastSuccess
                    ("Query executed successfully (" ++
                     Js.toString (Js.or_else (Js.opt_prop rows "length") (Js.Num 0)) ++
                     " rows)")))
         (fun e =>
            emit (ConsoleError "Query error:" e) ;;
            emit (ToastError (Js.Str (Js.message_or e "Failed to execute query")))))
      (emit (Update (SetIsExecuting false))).
End Handlers.

(** [handleTableSelect]. *)
Definition handleTableSelect (tableName : string) : Eff (Setter := Setter) unit :=
  emit (Update (SetSelectedTable tableName)) ;;
  emit (Update (SetQuery ("SELECT * FROM " ++ tableName ++ " LIMIT 100;"))).

(** The invariant the specification states for a [QueryResult]: [rows] is
    a sequence of positional rows, each as long as [columns]. *)
Definition row_aligned (width : nat) (row : Js.value) : bool :=
  match row with
  | Js.Arr cells => (List.length cells =? width)%nat
  | _ => false
  end.

Definition rows_aligned (columns rows : Js.value) : bool :=
  match columns, rows with
  | Js.Arr cs, Js.Arr rs => forallb (row_aligned (List.length cs)) rs
  | _, _ => false
  end.

(** Two answers of the backend: one whose only row is shorter than its
    column list, and one whose rows are keyed records as the shared
    [QueryResult] declaration has them ([rows: Record<string, any>[]]). *)
Definition two_columns : list Js.value :=
  [Js.Obj [("name", Js.Str "id"); ("type", Js.Str "integer")];
   Js.Obj [("name", Js.Str "email"); ("type", Js.Str "text")]].

Definition ragged_fields : list (string * Js.value) :=
  [("columns", Js.Arr two_columns); ("rows", Js.Arr [Js.Arr [Js.Num 1]])].

Definition ragged_result : Js.value := Js.Obj ragged_fields.

Definition keyed_result : Js.value :=
  Js.Obj [("columns", Js.Arr [Js.Obj [("name", Js.Str "id"); ("type", Js.Str "integer")]]);
          ("rows", Js.Arr [Js.Obj [("id", Js.Num 1)]])].

(** A page showing the one-row result of an earlier query, and a page on
    which only blanks have been typed. *)
Definition sample_state : State :=
  mkState [] "ds-1" "users" "SELECT * FROM users LIMIT 100;" false
          (Js.Arr [Js.Obj [("name", Js.Str "id"); ("type", Js.Str "integer")]])
          (Js.Arr [Js.Arr [Js.Num 7]]) (Some 12%Z) false.

Definition blank_state : State :=
  mkState [] "ds-1" "" (" " ++ Js.nbsp ++ Js.ideographic_space) false
          (Js.Arr []) Js.Null None false.

(** *** The results card *)

Inductive Cell : Type :=
| CellNull                  (* the italic NULL marker *)
| CellNumber (n : Z)        (* [value.toLocaleString()] of a number *)
| CellInfinity (negative : bool)   (* [value.toLocaleString()] of an infinity *)
| CellText (s : string).    (* [String(value)] *)

Definition render_cell (value : Js.value) : Cell :=
  match value with
  | Js.Null => CellNull
  | Js.Num n => CellNumber n
  | Js.Inf negative => CellInfinity negative
  | _ => CellText (Js.toString value)
  end.

Record ResultsTable : Type := {
  header : list string;
  body : list (list Cell)
}.

Inductive ResultsCard : Type :=
| NoResultsYet
| ResultsView (row_count : string)     (* [{results.length} rows] *)
              (elapsed : string)       (* [{executionTime}ms] *)
              (table : ResultsTable).

(** [<th>{col.name}</th>] for one element of [columns]. *)
Definition render_th (col : Js.value) : Js.result string :=
  match Js.get_prop col "name" with
  | inl e => inl e
  | inr n => render_child n
  end.

(** [<tr>{row.map((value, i) => <td>...</td>)}</tr>] for one element of
    [results]. *)
Definition render_tr (row : Js.value) : Js.result (list Cell) :=
  array_map "row" row (fun value => inr (render_cell value)).

(** The results card of the page: [results ? <table>...</table> : <placeholder>];
    a throw is a render error of the component. *)
Definition render_results (st : State) : Js.result ResultsCard :=
  if Js.truthy (results st) then
    match Js.get_prop (results st) "length" with
    | inl e => inl e
    | inr len =>
        match render_child len with
        | inl e => inl e
        | inr count =>
            match array_map "columns" (columns st) render_th with
            | inl e => inl e
            | inr ths =>
                match array_map "results" (results st) render_tr with
                | inl e => inl e
                | inr trs =>
                    inr (ResultsView count
                                     (match executionTime st with
                                      | Some ms => Js.string_of_Z ms ++ "ms"
                                      | None => "ms"
                                      end)
                                     {| header := ths; body := trs |})
                end
            end
        end
    end
  else inr NoResultsYet.

End Explorer.

(* ===================================================================== *)
(** ** Data sources page ([DataSourcesPage], fetch-backed version) *)
(* ===================================================================== *)

Module DataSources.

Local Open Scope eff_scope.

Record DataSourceType : Type := mkType {
  id : string;
  name : string;
  defaultPort : string
}.

(** [dataSourceTypes] (the [icon] glyphs are left out). *)
Definition dataSourceTypes : list DataSourceType :=
  [ mkType "postgresql" "PostgreSQL" "5432";
    mkType "mysql" "MySQL" "3306";
    mkType "mongodb" "MongoDB" "27017";
    mkType "sqlite" "SQLite" "";
    mkType "snowflake" "Snowflake" "";
    mkType "bigquery" "BigQuery" "";
    mkType "redshift" "Redshift" "5439";
    mkType "csv" "CSV File" "";
    mkType "rest_api" "REST API" "" ].

Record ConnectionForm : Type := mkForm {
  f_name : string;
  f_host : string;
  f_port : string;
  f_database : string;
  f_username : string;
  f_password : string;
  f_url : string;
  f_apiKey : string
}.

(** [keyof ConnectionForm]. *)
Inductive FormKey : Type :=
| Kname | Khost | Kport | Kdatabase | Kusername | Kpassword | Kurl | KapiKey.

(** [{ ...prev, [field]: value }]. *)
Definition set_field (field : FormKey) (value : string) (prev : ConnectionForm)
  : ConnectionForm :=
  match field with
  | Kname => mkForm value (f_host prev) (f_port prev) (f_database prev)
                    (f_username prev) (f_password prev) (f_url prev) (f_apiKey prev)
  | Khost => mkForm (f_name prev) value (f_port prev) (f_database prev)
                    (f_username prev) (f_password prev) (f_url prev) (f_apiKey prev)
  | Kport => mkForm (f_name prev) (f_host prev) value (f_database prev)
                    (f_username prev) (f_password prev) (f_url prev) (f_apiKey prev)
  | Kdatabase => mkForm (f_name prev) (f_host prev) (f_port prev) value
                        (f_username prev) (f_password prev) (f_url prev) (f_apiKey prev)
  | Kusername => mkForm (f_name prev) (f_host prev) (f_port prev) (f_database prev)
                        value (f_password prev) (f_url prev) (f_apiKey prev)
  | Kpassword => mkForm (f_name prev) (f_host prev) (f_port prev) (f_database prev)
                        (f_username prev) value (f_url prev) (f_apiKey prev)
  | Kurl => mkForm (f_name prev) (f_host prev) (f_port prev) (f_database prev)
                   (f_username prev) (f_password prev) value (f_apiKey prev)
  | KapiKey => mkForm (f_name prev) (f_host prev) (f_port prev) (f_database prev)
                      (f_username prev) (f_password prev) (f_url prev) value
  end.

Definition emptyForm : ConnectionForm :=
  mkForm "" "localhost" "" "" "" "" "" "".

(** An element of the [dataSources] list as [loadDataSources] builds it. *)
Record DataSourceItem : Type := mkItem {
  i_id : Js.value;
  i_name : Js.value;
  i_type : Js.value;
  i_status : Js.value;
  i_tables : Js.value;
  i_lastConnected : Js.value
}.

Record State : Type := mkState {
  searchQuery : string;
  isDialogOpen : bool;
  selectedType : string;
  isConnecting : bool;
  dataSources : list DataSourceItem;
  formData : ConnectionForm
}.

Definition initial : State :=
  mkState "" false "" false [] emptyForm.

Inductive Setter : Type :=
| SetSearchQuery (q : string)
| SetIsDialogOpen (b : bool)
| SetSelectedType (t : string)
| SetIsConnecting (b : bool)
| SetDataSources (l : list DataSourceItem)
| SetFormField (field : FormKey) (value : string)   (* [prev => ({...prev, [field]: value})] *)
| SetFormData (f : ConnectionForm).

Definition apply (u : Setter) (st : State) : State :=
  match u with
  | SetSearchQuery q =>
      mkState q (isDialogOpen st) (selectedType st) (isConnecting st) (dataSources st) (formData st)
  | SetIsDialogOpen b =>
      mkState (searchQuery st) b (selectedType st) (isConnecting st) (dataSources st) (formData st)
  | SetSelectedType t =>
      mkState (searchQuery st) (isDialogOpen st) t (isConnecting st) (dataSources st) (formData st)
  | SetIsConnecting b =>
      mkState (searchQuery st) (isDialogOpen st) (selectedType st) b (dataSources st) (formData st)
  | SetDataSources l =>
      mkState (searchQuery st) (isDialogOpen st) (selectedType st) (isConnecting st) l (formData st)
  | SetFormField k v =>
      mkState (searchQuery st) (isDialogOpen st) (selectedType st) (isConnecting st)
              (dataSources st) (set_field k v (formData st))
  | SetFormData f =>
      mkState (searchQuery st) (isDialogOpen st) (selectedType st) (isConnecting st)
              (dataSources st) f
  end.

Definition datasources_url : string := "http://localhost:8000/api/v1/datasources".

(** One [s => ({ id: s.id, ... })] step of [loadDataSources]. *)
Definition toItem (s : Js.value) : Js.result DataSourceItem :=
  match Js.get_prop s "id" with
  | inl e => inl e
  | inr _ =>
      let prop k := match Js.get_prop s k with inr v => v | inl _ => Js.Undefined end in
      inr (mkItem (prop "id") (prop "name") (prop "type")
                  (Js.or_else (prop "status") (Js.Str "connected"))
                  (Js.or_else
                     (Js.opt_prop (Js.opt_prop (prop "schema_data") "tables") "length")
                     (Js.Num 0))
                  (prop "last_synced"))
  end.

(** [loadDataSources]: every failure is caught and only logged. *)
Definition loadDataSources (net : FetchOutcome) : Eff (Setter := Setter) unit :=
  try_catch
    (resp <- await_fetch (mkRequest "GET" datasources_url None) net ;;
     if fst resp then
       sources <- lift (snd resp) ;;
       items <- lift (array_map "sources" sources toItem) ;;
       emit (Update (SetDataSources items))
     else ret tt)
    (fun e => emit (ConsoleError "Failed to load data sources:" e)).

(** [handleTypeSelect]. *)
Definition handleTypeSelect (typeId : string) : Eff (Setter := Setter) unit :=
  emit (Update (SetSelectedType typeId)) ;;
  match find (fun t => id t =? typeId) dataSourceTypes with
  | Some typeInfo => emit (Update (SetFormField Kport (defaultPort typeInfo)))
  | None => ret tt
  end.

(** [handleInputChange]. *)
Definition handleInputChange (field : FormKey) (value : string)
  : Eff (Setter := Setter) unit :=
  emit (Update (SetFormField field value)).

(** [resetForm]. *)
Definition resetForm : Eff (Setter := Setter) unit :=
  emit (Update (SetSelectedType "")) ;;
  emit (Update (SetFormData emptyForm)).

(** *** [parseInt] *)

Definition digit_value (radix : Z) (c : ascii) : option Z :=
  let n := Z.of_nat (nat_of_ascii c) in
  let d := if ((48 <=? n) && (n <=? 57))%Z then Some (n - 48)%Z
           else if ((97 <=? n) && (n <=? 122))%Z then Some (n - 87)%Z
           else if ((65 <=? n) && (n <=? 90))%Z then Some (n - 55)%Z
           else None in
  match d with
  | Some v => if (v <? radix)%Z then Some v else None
  | None => None
  end.

(** The value of the longest prefix of digits; [acc] is [None] until a digit
    has been read. *)
Fixpoint digits (radix : Z) (s : string) (acc : option Z) : option Z :=
  match s with
  | EmptyString => acc
  | String c rest =>
      match digit_value radix c with
      | Some v =>
          digits radix rest
                 (Some (radix * (match acc with Some a => a | None => 0 end) + v)%Z)
      | None => acc
      end
  end.

(** The integer [parseInt(s)] reads, before it is made a Number: leading
    white space, a sign, an optional [0x] and the longest run of digits;
    [None] when there is no digit. *)
Definition parse_integer (s : string) : option Z :=
  let s1 := Js.trimStart s in
  let '(neg, s2) := match s1 with
                    | String "-" r => (true, r)
                    | String "+" r => (false, r)
                    | _ => (false, s1)
                    end in
  let '(radix, s3) := match s2 with
                      | String "0" (String "x" r) => (16%Z, r)
                      | String "0" (String "X" r) => (16%Z, r)
                      | _ => (10%Z, s2)
                      end in
  option_map (fun n => if neg then (- n)%Z else n) (digits radix s3 None).

(** [parseInt(s)]; [None] is NaN.  The integer read is rounded to the
    nearest double.  (For a decimal numeral the language lets an
    implementation read the significant digits after the twentieth as 0;
    here they are all read.  What is proved of [parseInt] below concerns
    numerals of at most sixteen digits, or holds for either reading.) *)
Definition parseInt (s : string) : option Js.value :=
  option_map Js.to_number (parse_integer s).

(** [parseInt(port) || undefined]. *)
Definition port_value (port : string) : Js.value :=
  match parseInt port with
  | Some n => Js.or_else n Js.Undefined
  | None => Js.Undefined
  end.

(** The [connectionConfig] object [handleConnect] builds. *)
Definition connectionConfig (selectedType : string) (formData : ConnectionForm)
  : Js.value :=
  if selectedType =? "rest_api" then
    Js.Obj [("url", Js.Str (f_url formData)); ("api_key", Js.Str (f_apiKey formData))]
  else if selectedType =? "csv" then
    Js.Obj [("file_path", Js.Str (f_name formData))]
  else
    Js.Obj [("host", Js.Str (f_host formData));
            ("port", port_value (f_port formData));
            ("database", Js.Str (f_database formData));
            ("username", Js.Str (f_username formData));
            ("password", Js.Str (f_password formData))].

Definition create_request (st : State) : Request :=
  mkRequest "POST" datasources_url
            (Some (Js.Obj [("name", Js.Str (f_name (formData st)));
                           ("type", Js.Str (selectedType st));
                           ("config", connectionConfig (selectedType st) (formData st))])).

(** [handleConnect]; [created] answers the POST, [reloaded] the GET of the
    list refresh that follows a success. *)
Definition handleConnect (st : State) (created reloaded : FetchOutcome)
  : Eff (Setter := Setter) unit :=
  if negb (Js.truthy (Js.Str (f_name (formData st)))) then
    emit (ToastError (Js.Str "Please enter a connection name"))
  else
    emit (Update (SetIsConnecting true)) ;;
    finally
      (try_catch
         (resp <- await_fetch (create_request st) created ;;
          if negb (fst resp) then
            error <- lift (snd resp) ;;
            detail <- lift (Js.get_prop error "detail") ;;
            throw (Js.new_Error
                     (Js.or_else detail (Js.Str "Failed to connect to data source")))
          else
            loadDataSources reloaded ;;
            emit (ToastSuccess "Data source connected successfully!") ;;
            emit (Update (SetIsDialogOpen false)) ;;
            resetForm)
         (fun e =>
            emit (ConsoleError "Connection error:" e) ;;
            emit (ToastError (Js.Str (Js.message_or e "Failed to connect to data source")))))
      (emit (Update (SetIsConnecting false))).

(** *** The connection dialog *)

(** The [<Input>] elements of the dialog, by their [id]. *)
Inductive FormInput : Type :=
| InName | InHost | InPort | InDatabase | InUsername | InPassword
| InUrl | InApiKey | InFile.

Definition FormInput_eqb (a b : FormInput) : bool :=
  match a, b with
  | InName, InName | InHost, InHost | InPort, InPort | InDatabase, InDatabase
  | InUsername, InUsername | InPassword, InPassword | InUrl, InUrl
  | InApiKey, InApiKey | InFile, InFile => true
  | _, _ => false
  end.

Definition network_inputs : list FormInput :=
  [InHost; InPort; InDatabase; InUsername; InPassword].

(** The inputs under "Connection Details":
    [{selectedType && ( name, {type !== "csv" && type !== "rest_api" && ...},
       {type === "rest_api" && ...}, {type === "csv" && ...} )}]. *)
Definition connectionInputs (selectedType : string) : list FormInput :=
  if Js.truthy (Js.Str selectedType) then
    [InName]
    ++ (if negb (selectedType =? "csv") && negb (selectedType =? "rest_api")
        then [InHost; InPort; InDatabase; InUsername; InPassword] else [])
    ++ (if selectedType =? "rest_api" then [InUrl; InApiKey] else [])
    ++ (if selectedType =? "csv" then [InFile] else [])
  else [].

(** What the browser holds besides the component state: the file picked in
    the uncontrolled [<Input id="file" type="file">], which has neither a
    [value] nor an [onChange]. *)
Record Dom : Type := {
  chosenFile : option string
}.

(** The dialog with the CSV type chosen, a connection name entered and a
    file picked. *)
Definition csv_state : State :=
  mkState "" true "csv" false [] (mkForm "sales-2024" "localhost" "" "" "" "" "" "").

Definition csv_dom : Dom := {| chosenFile := Some "/home/me/sales.csv" |}.

(** A click on "Connect" ([onClick={handleConnect}]). *)
Definition onConnectClick (dom : Dom) (st : State) (created reloaded : FetchOutcome)
  : Eff (Setter := Setter) unit :=
  handleConnect st created reloaded.

(** [formData[field]]. *)
Definition get_field (field : FormKey) (f : ConnectionForm) : string :=
  match field with
  | Kname => f_name f
  | Khost => f_host f
  | Kport => f_port f
  | Kdatabase => f_database f
  | Kusername => f_username f
  | Kpassword => f_password f
  | Kurl => f_url f
  | KapiKey => f_apiKey f
  end.

(** [handleDelete(source.id, source.name)]; [deleted] answers the DELETE,
    [reloaded] the GET of the list refresh. *)
Definition handleDelete (id name : Js.value) (deleted reloaded : FetchOutcome)
  : Eff (Setter := Setter) unit :=
  try_catch
    (response <- await_fetch
                   (mkRequest "DELETE" (datasources_url ++ "/" ++ Js.toString id) None)
                   deleted ;;
     if negb (fst response) then
       throw (Js.new_Error (Js.Str "Failed to delete data source"))
     else
       loadDataSources reloaded ;;
       emit (ToastSuccess (Js.toString name ++ " has been deleted")))
    (fun error =>
       emit (ToastError (Js.Str (Js.message_or error "Failed to delete data source")))).

Section Search.
(** [String.prototype.toLowerCase]: the case mapping of the Unicode
    standard, taken as given. *)
Variable toLowerCase : string -> string.

(** [v.toLowerCase()] for a value [v] written [expr] in the source. *)
Definition call_toLowerCase (expr : string) (v : Js.value) : Js.result string :=
  match v with
  | Js.Str s => inr (toLowerCase s)
  | Js.Undefined | Js.Null => inl (Js.ErrorExn (Js.type_error_message v "toLowerCase"))
  | _ => inl (Js.ErrorExn (expr ++ ".toLowerCase is not a function"))
  end.

(** [source.name.toLowerCase().includes(searchQuery.toLowerCase())]. *)
Definition matches_search (searchQuery : string) (source : DataSourceItem)
  : Js.result bool :=
  match call_toLowerCase "source.name" (i_name source) with
  | inl e => inl e
  | inr n => inr (Js.includes n (toLowerCase searchQuery))
  end.

(** [filteredSources], the cards of the grid; a throw is a render error. *)
Fixpoint filter_sources (searchQuery : string) (l : list DataSourceItem)
  : Js.result (list DataSourceItem) :=
  match l with
  | [] => inr []
  | source :: rest =>
      match matches_search searchQuery source with
      | inl e => inl e
      | inr keep =>
          match filter_sources searchQuery rest with
          | inl e => inl e
          | inr shown => inr (if keep then source :: shown else shown)
          end
      end
  end.

Definition filteredSources (st : State) : Js.result (list DataSourceItem) :=
  filter_sources (searchQuery st) (dataSources st).
End Search.


(** The state of the dialog and the answers used to exercise the handlers. *)
Definition postgres_state : State :=
  mkState "" true "postgresql" false []
          (mkForm "Prod" "db.local" "5432" "app" "u" "p" "" "").

Definition one_source : Js.value :=
  Js.Arr [Js.Obj [("id", Js.Str "ds-1"); ("name", Js.Str "Prod");
                  ("type", Js.Str "postgresql")]].

End DataSources.

(* ===================================================================== *)
(** ** The data-source store ([lib/store.ts], [useDataSourceStore]) *)
(* ===================================================================== *)

Module Store.

(** [DataSourceType] of the shared type declarations. *)
Inductive DataSourceType : Type :=
| postgresql | mysql | mongodb | sqlite | csv | excel
| rest_api | graphql | snowflake | bigquery | redshift.

Inductive Status : Type := connected | disconnected | error_status.

Record ConnectionConfig : Type := {
  host : option string;
  port : option Z;
  database : option string;
  username : option string;
  password : option string;
  ssl : option bool;
  url : option string;
  apiKey : option string;
  headers : option (list (string * string));
  filePath : option string
}.

Record ColumnSchema : Type := {
  column_name : string;
  column_type : string;
  nullable : bool;
  primaryKey : bool
}.

Record TableSchema : Type := {
  table_name : string;
  table_columns : list ColumnSchema;
  rowCount : option Z
}.

(** [DataSource]; dates are epoch milliseconds. *)
Record DataSource : Type := {
  id : string;
  name : string;
  type : DataSourceType;
  config : ConnectionConfig;
  status : Status;
  lastConnected : option Z;
  schema : option (list TableSchema);
  createdAt : Z;
  updatedAt : Z
}.

Record DataSourceState : Type := mkStore {
  dataSources : list DataSource;
  selectedDataSource : option DataSource;
  isConnecting : bool;
  error : option string
}.

Definition initial : DataSourceState := mkStore [] None false None.

(** [state.selectedDataSource?.id === id]. *)
Definition selected_has_id (sel : option DataSource) (i : string) : bool :=
  match sel with
  | Some ds => id ds =? i
  | None => false
  end.

(** [addDataSource]; zustand's [set] merges the returned fields into the
    state, the others stay. *)
Definition addDataSource (dataSource : DataSource) (state : DataSourceState)
  : DataSourceState :=
  mkStore (dataSources state ++ [dataSource]) (selectedDataSource state)
          (isConnecting state) (error state).

(** [removeDataSource]. *)
Definition removeDataSource (i : string) (state : DataSourceState)
  : DataSourceState :=
  mkStore (filter (fun ds => negb (id ds =? i)) (dataSources state))
          (if selected_has_id (selectedDataSource state) i
           then None else selectedDataSource state)
          (isConnecting state) (error state).

(** [selectDataSource]; the argument is [string | null]. *)
Definition selectDataSource (i : option string) (state : DataSourceState)
  : DataSourceState :=
  mkStore (dataSources state)
          (match i with
           | Some s => if Js.truthy (Js.Str s)
                       then find (fun ds => id ds =? s) (dataSources state)
                       else None
           | None => None
           end)
          (isConnecting state) (error state).

(** A store with two sources, the first of them selected. *)
Definition noConfig : ConnectionConfig :=
  Build_ConnectionConfig None None None None None None None None None None.

Definition prod : DataSource :=
  Build_DataSource "ds-1" "Prod" postgresql noConfig connected None None 0 0.

Definition files : DataSource :=
  Build_DataSource "ds-2" "Files" csv noConfig connected None None 0 0.

Definition two_sources : DataSourceState := mkStore [prod; files] (Some prod) false None.

Definition setConnecting (b : bool) (state : DataSourceState) : DataSourceState :=
  mkStore (dataSources state) (selectedDataSource state) b (error state).

Definition setError (e : option string) (state : DataSourceState) : DataSourceState :=
  mkStore (dataSources state) (selectedDataSource state) (isConnecting state) e.

(** [Partial<DataSource>]: the fields an update carries, each with a value
    of its type (an update with a key set to [undefined] is not
    represented). *)
Record DataSourceUpdates : Type := {
  u_id : option string;
  u_name : option string;
  u_type : option DataSourceType;
  u_config : option ConnectionConfig;
  u_status : option Status;
  u_lastConnected : option (option Z);
  u_schema : option (option (list TableSchema));
  u_createdAt : option Z;
  u_updatedAt : option Z
}.

Definition no_updates : DataSourceUpdates :=
  Build_DataSourceUpdates None None None None None None None None None.

Definition or_keep {A} (u : option A) (old : A) : A :=
  match u with
  | Some v => v
  | None => old
  end.

(** [{ ...ds, ...updates }]. *)
Definition merge (ds : DataSource) (updates : DataSourceUpdates) : DataSource :=
  Build_DataSource
    (or_keep (u_id updates) (id ds)) (or_keep (u_name updates) (name ds))
    (or_keep (u_type updates) (type ds)) (or_keep (u_config updates) (config ds))
    (or_keep (u_status updates) (status ds))
    (or_keep (u_lastConnected updates) (lastConnected ds))
    (or_keep (u_schema updates) (schema ds))
    (or_keep (u_createdAt updates) (createdAt ds))
    (or_keep (u_updatedAt updates) (updatedAt ds)).

(** [updateDataSource]. *)
Definition updateDataSource (i : string) (updates : DataSourceUpdates)
           (state : DataSourceState) : DataSourceState :=
  mkStore (map (fun ds => if id ds =? i then merge ds updates else ds)
               (dataSources state))
          (match selectedDataSource state with
           | Some sel => if id sel =? i then Some (merge sel updates) else Some sel
           | None => None
           end)
          (isConnecting state) (error state).

(** The actions of the store. *)
Inductive StoreAction : Type :=
| AddDataSource (dataSource : DataSource)
| RemoveDataSource (i : string)
| SelectDataSource (i : option string)
| UpdateDataSource (i : string) (updates : DataSourceUpdates)
| SetConnecting (b : bool)
| SetError (e : option string).

Definition dispatch (a : StoreAction) (state : DataSourceState) : DataSourceState :=
  match a with
  | AddDataSource ds => addDataSource ds state
  | RemoveDataSource i => removeDataSource i state
  | SelectDataSource i => selectDataSource i state
  | UpdateDataSource i u => updateDataSource i u state
  | SetConnecting b => setConnecting b state
  | SetError e => setError e state
  end.

(** The store after a sequence of actions. *)
Definition dispatch_all (l : list StoreAction) (state : DataSourceState)
  : DataSourceState :=
  fold_left (fun s a => dispatch a s) l state.

(** The selection, when there is one, is an entry of the list. *)
Definition selection_valid (state : DataSourceState) : Prop :=
  match selectedDataSource state with
  | Some ds => In ds (dataSources state)
  | None => True
  end.

End Store.

(* ===================================================================== *)
(** ** Insights page ([insights/page.tsx], fetch-backed [InsightsPage]) *)
(* ===================================================================== *)

Module Insights.

Local Open Scope eff_scope.

(** An element of [insights], as the transformation in
    [handleGenerateInsights] builds it from an item of the response. *)
Record Insight : Type := mkInsight {
  id : Js.value;
  title : Js.value;
  description : Js.value;
  type : Js.value;
  severity : Js.value;
  dataSource : Js.value;
  confidence : Js.value;
  createdAt : Js.value;
  visualization : Js.value;
  metrics : Js.value
}.

Definition insightTypes : list (string * string) :=
  [ ("all", "All Insights"); ("trend", "Trends"); ("anomaly", "Anomalies");
    ("correlation", "Correlations"); ("recommendation", "Recommendations") ].

(** [dataSources] holds the body of [GET /datasources] as received. *)
Record State : Type := mkState {
  selectedType : string;
  isGenerating : bool;
  insights : list Insight;
  dataSources : Js.value;
  selectedDataSource : string;
  isLoading : bool
}.

Definition initial : State := mkState "all" false [] (Js.Arr []) "all" true.

Inductive Setter : Type :=
| SetSelectedType (t : string)
| SetIsGenerating (b : bool)
| SetInsights (l : list Insight)
| SetDataSources (d : Js.value)
| SetSelectedDataSource (s : string)
| SetIsLoading (b : bool).

Definition apply (u : Setter) (st : State) : State :=
  match u with
  | SetSelectedType t =>
      mkState t (isGenerating st) (insights st) (dataSources st) (selectedDataSource st) (isLoading st)
  | SetIsGenerating b =>
      mkState (selectedType st) b (insights st) (dataSources st) (selectedDataSource st) (isLoading st)
  | SetInsights l =>
      mkState (selectedType st) (isGenerating st) l (dataSources st) (selectedDataSource st) (isLoading st)
  | SetDataSources d =>
      mkState (selectedType st) (isGenerating st) (insights st) d (selectedDataSource st) (isLoading st)
  | SetSelectedDataSource s =>
      mkState (selectedType st) (isGenerating st) (insights st) (dataSources st) s (isLoading st)
  | SetIsLoading b =>
      mkState (selectedType st) (isGenerating st) (insights st) (dataSources st) (selectedDataSource st) b
  end.

Definition datasources_url : string := "http://localhost:8000/api/v1/datasources".
Definition generate_url : string := "http://localhost:8000/api/v1/insights/generate".

(** [loadDataSources]. *)
Definition loadDataSources (net : FetchOutcome) : Eff (Setter := Setter) unit :=
  try_catch
    (res <- await_fetch (mkRequest "GET" datasources_url None) net ;;
     if fst res then
       data <- lift (snd res) ;;
       emit (Update (SetDataSources data))
     else ret tt)
    (fun e => emit (ConsoleError "Failed to load data sources:" e)).

(** The mount effect, [useEffect(() => { loadDataSources(); setIsLoading(false); }, [])]:
    the load is started but not awaited, so the flag is cleared right after
    the request has been issued. *)
Definition onMount (net : FetchOutcome) : Eff (Setter := Setter) unit :=
  match loadDataSources net with
  | (issued :: later, r) => (issued :: Update (SetIsLoading false) :: later, r)
  | ([], r) => ([Update (SetIsLoading false)], r)
  end.

(** [a[0]] for a value that is neither [null] nor [undefined]. *)
Definition first_elem (a : Js.value) : Js.value :=
  match a with
  | Js.Arr (x :: _) => x
  | Js.Str (String c _) => Js.Str (String c EmptyString)
  | Js.Obj fs => Js.lookup "0" fs
  | _ => Js.Undefined
  end.

(** [dataSources.find(ds => ds.id === wanted)]. *)
Definition find_by_id (dataSources wanted : Js.value) : Js.result Js.value :=
  match dataSources with
  | Js.Arr l =>
      (fix go (l : list Js.value) : Js.result Js.value :=
         match l with
         | [] => inr Js.Undefined
         | ds :: rest =>
             match Js.get_prop ds "id" with
             | inl e => inl e
             | inr i => if Js.strict_eq i wanted then inr ds else go rest
             end
         end) l
  | Js.Undefined | Js.Null =>
      inl (Js.ErrorExn (Js.type_error_message dataSources "find"))
  | _ => inl (Js.ErrorExn "dataSources.find is not a function")
  end.

Section Handlers.
(** [new Date(v).toLocaleString()]. *)
Variable date_toLocaleString : Js.value -> string.

(** The [(item: any) => ({ ... })] transformation. *)
Definition transform (dataSources item : Js.value) : Js.result Insight :=
  match Js.get_prop item "id" with
  | inl e => inl e
  | inr _ =>
      let prop k := match Js.get_prop item k with inr v => v | inl _ => Js.Undefined end in
      match find_by_id dataSources (prop "data_source_id") with
      | inl e => inl e
      | inr found =>
          inr (mkInsight
                 (prop "id") (prop "title") (prop "description")
                 (Js.or_else (Js.or_else (prop "insight_type") (prop "type")) (Js.Str "trend"))
                 (Js.or_else (prop "severity") (Js.Str "info"))
                 (Js.or_else (Js.opt_prop found "name") (Js.Str "Unknown"))
                 (Js.or_else (prop "confidence") (Js.Num 85))
                 (if Js.truthy (prop "created_at")
                  then Js.Str (date_toLocaleString (prop "created_at"))
                  else Js.Str "Just now")
                 (Js.or_else (prop "visualization") (Js.Str "bar"))
                 (Js.or_else (prop "metrics") (Js.Arr [])))
      end
  end.

(** [handleGenerateInsights]. *)
Definition handleGenerateInsights (st : State) (net : FetchOutcome)
  : Eff (Setter := Setter) unit :=
  len <- lift (Js.get_prop (dataSources st) "length") ;;
  if Js.strict_eq len (Js.Num 0) then
    emit (ToastError (Js.Str "Please connect a data source first"))
  else
    emit (Update (SetIsGenerating true)) ;;
    finally
      (try_catch
         (let targetSource :=
            if selectedDataSource st =? "all"
            then Js.opt_prop (first_elem (dataSources st)) "id"
            else Js.Str (selectedDataSource st) in
          res <- await_fetch
                   (mkRequest "POST" generate_url
                              (Some (Js.Obj [("data_source_id", targetSource);
                                             ("max_insights", Js.Num 5)])))
                   net ;;
          if fst res then
            data <- lift (snd res) ;;
            transformedInsights <- lift (array_map "data" data (transform (dataSources st))) ;;
            emit (Update (SetInsights transformedInsights)) ;;
            emit (ToastSuccess
                    ("Generated " ++
                     Js.string_of_Z (Z.of_nat (List.length transformedInsights)) ++
                     " insights!"))
          else
            (* [await res.json().catch(() => ({}))] *)
            let error := match snd res with inr v => v | inl _ => Js.Obj [] end in
            detail <- lift (Js.get_prop error "detail") ;;
            emit (ToastError (Js.or_else detail (Js.Str "Failed to generate insights"))))
         (fun err =>
            emit (ConsoleError "Error generating insights:" err) ;;
            emit (ToastError (Js.Str "Failed to connect to API"))))
      (emit (Update (SetIsGenerating false))).
End Handlers.

(** The page once mounted, with no data source and no insight. *)
Definition no_sources : State := mkState "all" false [] (Js.Arr []) "all" false.

(** The two metric payloads of the specification. *)
Definition growth_by_label : Js.value :=
  Js.Obj [("label", Js.Str "Growth"); ("value", Js.Num 15); ("change", Js.Num 3)].

Definition growth_by_name : Js.value :=
  Js.Obj [("name", Js.Str "Growth"); ("value", Js.Num 15); ("change", Js.Str "+3")].

(** A page with two data sources, and the body of the generate request. *)
Definition two_sources : Js.value :=
  Js.Arr [Js.Obj [("id", Js.Str "ds-1"); ("name", Js.Str "Prod")];
          Js.Obj [("id", Js.Str "ds-2"); ("name", Js.Str "Files")]].

Definition with_sources : State := mkState "all" false [] two_sources "all" false.

(** The data source the generate request names:
    [selectedDataSource === "all" ? dataSources[0]?.id : selectedDataSource]. *)
Definition target_of (st : State) : Js.value :=
  if selectedDataSource st =? "all"
  then Js.opt_prop (first_elem (dataSources st)) "id"
  else Js.Str (selectedDataSource st).

Definition generate_request (target : Js.value) : Request :=
  mkRequest "POST" generate_url
            (Some (Js.Obj [("data_source_id", target); ("max_insights", Js.Num 5)])).

(** *** Rendering of one metric *)

Inductive BadgeVariant : Type := success | destructive.

Record ChangeBadge : Type := {
  variant : BadgeVariant;
  badge_text : string
}.

Record MetricView : Type := {
  label_text : string;
  value_text : string;
  change_badge : option ChangeBadge
}.

Section Rendering.
(** [Number(s) > 0] for a string [s]. *)
Variable StringToNumber_positive : string -> bool.

(** [Number(v) > 0]. *)
Definition Number_positive (v : Js.value) : bool :=
  match v with
  | Js.Num n => (0 <? n)%Z
  | Js.Inf negative => negb negative
  | Js.Bool b => b
  | Js.Undefined | Js.Null => false
  | Js.Str _ | Js.Arr _ | Js.Obj _ => StringToNumber_positive (Js.toString v)
  end.

(** The expression rendered inside the badge:
    [typeof change === "number" ? (change > 0 ? `+${change}` : change) : change]. *)
Definition change_expr (change : Js.value) : Js.value :=
  match change with
  | Js.Num n => if (0 <? n)%Z then Js.Str ("+" ++ Js.toString change) else change
  | Js.Inf false => Js.Str ("+" ++ Js.toString change)
  | _ => change
  end.

(** One [<div>] of the metrics grid. *)
Definition render_metric (metric : Js.value) : Js.result MetricView :=
  match Js.get_prop metric "label" with
  | inl e => inl e
  | inr label =>
      let prop k := match Js.get_prop metric k with inr v => v | inl _ => Js.Undefined end in
      match render_child (Js.or_else label (prop "name")) with
      | inl e => inl e
      | inr label_txt =>
          match render_child (prop "value") with
          | inl e => inl e
          | inr value_txt =>
              let change := prop "change" in
              match change with
              | Js.Undefined | Js.Null =>
                  inr {| label_text := label_txt; value_text := value_txt;
                         change_badge := None |}
              | _ =>
                  match render_child (change_expr change),
                        render_child (Js.or_else (prop "unit") (Js.Str "")) with
                  | inr c, inr u =>
                      inr {| label_text := label_txt; value_text := value_txt;
                             change_badge :=
                               Some {| variant :=
                                         if String.prefix "+" (Js.toString change)
                                            || Number_positive change
                                         then success else destructive;
                                       badge_text := c ++ u |} |}
                  | inl e, _ => inl e
                  | _, inl e => inl e
                  end
              end
          end
      end
  end.

(** *** The page *)

Inductive Control : Type :=
| ExportButton
| GenerateInsightsButton (disabled : bool)   (* [onClick={handleGenerateInsights}] *)
| ConnectDataSourceLink (href : string).

Record Card : Type := {
  card_title : string;
  card_source : string;
  card_createdAt : string;
  card_type : string;
  card_description : string;
  card_metrics : list MetricView;
  card_confidence : string
}.

Inductive Body : Type :=
| Loading
| EmptyState (message : string) (cta : Control)
| Grid (cards : list Card).

Record View : Type := {
  header : list Control;
  filters : list string;
  sourceOptions : list (Js.value * Js.value);
  body : Body
}.

Definition filteredInsights (st : State) : list Insight :=
  if selectedType st =? "all" then insights st
  else filter (fun insight => Js.strict_eq (type insight) (Js.Str (selectedType st)))
              (insights st).

Definition render_card (insight : Insight) : Js.result Card :=
  match render_child (title insight), render_child (dataSource insight),
        render_child (createdAt insight), render_child (type insight),
        render_child (description insight),
        array_map "insight.metrics" (metrics insight) render_metric,
        render_child (confidence insight) with
  | inr t, inr s, inr c, inr ty, inr d, inr ms, inr conf =>
      inr {| card_title := t; card_source := s; card_createdAt := c;
             card_type := ty; card_description := d; card_metrics := ms;
             card_confidence := conf |}
  | inl e, _, _, _, _, _, _ | _, inl e, _, _, _, _, _ | _, _, inl e, _, _, _, _
  | _, _, _, inl e, _, _, _ | _, _, _, _, inl e, _, _ | _, _, _, _, _, inl e, _
  | _, _, _, _, _, _, inl e => inl e
  end.

(** [filteredInsights.map((insight, index) => <Card>...</Card>)]. *)
Fixpoint render_cards (l : list Insight) : Js.result (list Card) :=
  match l with
  | [] => inr []
  | i :: rest =>
      match render_card i, render_cards rest with
      | inr c, inr cs => inr (c :: cs)
      | inl e, _ => inl e
      | _, inl e => inl e
      end
  end.

Definition render_option (ds : Js.value) : Js.result (Js.value * Js.value) :=
  match Js.get_prop ds "id" with
  | inl e => inl e
  | inr i => match Js.get_prop ds "name" with
             | inl e => inl e
             | inr n => inr (i, n)
             end
  end.

Definition connect_first_message : string :=
  "Connect a data source first, then generate AI-powered insights about your data.".

Definition click_generate_message : string :=
  "Click 'Generate Insights' to analyze your connected data sources and discover patterns, anomalies, and recommendations.".

(** The body below the filters:
    [isLoading ? ... : filteredInsights.length === 0 ? <empty card> : <grid>]. *)
Definition render_body (st : State) : Js.result Body :=
  if isLoading st then inr Loading
  else
    match filteredInsights st with
    | [] =>
        match Js.get_prop (dataSources st) "length" with
        | inl e => inl e
        | inr len =>
            if Js.strict_eq len (Js.Num 0)
            then inr (EmptyState connect_first_message
                                 (ConnectDataSourceLink "/datasources"))
            else inr (EmptyState click_generate_message
                                 (GenerateInsightsButton (isGenerating st)))
        end
    | shown =>
        match render_cards shown with
        | inl e => inl e
        | inr cs => inr (Grid cs)
        end
    end.

(** The page as returned by the component; a throw is a render error. *)
Definition render (st : State) : Js.result View :=
  match array_map "dataSources" (dataSources st) render_option with
  | inl e => inl e
  | inr opts =>
      match render_body st with
      | inl e => inl e
      | inr b =>
          inr {| header := [ExportButton; GenerateInsightsButton (isGenerating st)];
                 filters := map snd insightTypes;
                 sourceOptions := opts;
                 body := b |}
      end
  end.
End Rendering.

End Insights.

(* ===================================================================== *)
(** ** Integrations page ([IntegrationsPage]) *)
(* ===================================================================== *)

Module Integrations.

Local Open Scope eff_scope.

Record State : Type := mkState {
  isSlackDialogOpen : bool;
  isTeamsDialogOpen : bool;
  isConnecting : bool
}.

Definition initial : State := mkState false false false.

Inductive Setter : Type :=
| SetIsSlackDialogOpen (b : bool)
| SetIsTeamsDialogOpen (b : bool)
| SetIsConnecting (b : bool).

Definition apply (u : Setter) (st : State) : State :=
  match u with
  | SetIsSlackDialogOpen b => mkState b (isTeamsDialogOpen st) (isConnecting st)
  | SetIsTeamsDialogOpen b => mkState (isSlackDialogOpen st) b (isConnecting st)
  | SetIsConnecting b => mkState (isSlackDialogOpen st) (isTeamsDialogOpen st) b
  end.

(** [handleConnect]: a two-second wait stands in for the connection. *)
Definition handleConnect (type : string) : Eff (Setter := Setter) unit :=
  emit (Update (SetIsConnecting true)) ;;
  emit (Sleep 2000) ;;
  emit (Update (SetIsConnecting false)) ;;
  (if type =? "slack"
   then emit (Update (SetIsSlackDialogOpen false))
   else emit (Update (SetIsTeamsDialogOpen false))) ;;
  emit (ToastSuccess ((if type =? "slack" then "Slack" else "Teams") ++
                      " integration connected successfully!")).

(** What the user has typed into the dialogs' inputs; all four are
    uncontrolled ([id] only, no [value], no [onChange]). *)
Record Dom : Type := mkDom {
  slackToken : string;
  slackChannel : string;
  teamsWebhook : string;
  teamsName : string
}.








End Integrations.

(* ===================================================================== *)
(** ** The API client ([lib/api.ts], [integrationApi]) *)
(* ===================================================================== *)

Module Api.

Local Open Scope eff_scope.

(** [process.env.NEXT_PUBLIC_API_URL || "/api/v1"]; request paths below are
    relative to it. *)
Definition baseURL (env : option string) : string :=
  match env with
  | Some u => if Js.truthy (Js.Str u) then u else "/api/v1"
  | None => "/api/v1"
  end.

(** What awaiting an axios call yields: axios rejects on transport errors
    and on a status outside 2xx, and otherwise resolves to a response whose
    [data] is the parsed body. *)
Inductive AxiosOutcome : Type :=
| AxiosRejected (e : Js.thrown)
| AxiosResponse (data : Js.value).

Definition call (method path : string) (data : option Js.value) (o : AxiosOutcome)
  : Eff (Setter := Empty_set) Js.value :=
  emit (Fetch (mkRequest method path data)) ;;
  match o with
  | AxiosRejected e => throw e
  | AxiosResponse d => ret d
  end.






(** [integrationApi.getAll]. *)
Definition getAll (o : AxiosOutcome) : Eff (Setter := Empty_set) Js.value :=
  call "GET" "/integrations" None o.



(** [integrationApi.delete]. *)
Definition delete (id : string) (o : AxiosOutcome) : Eff (Setter := Empty_set) Js.value :=
  call "DELETE" ("/integrations/" ++ id) None o.

(** [integrationApi.test]. *)
Definition test (id : string) (o : AxiosOutcome) : Eff (Setter := Empty_set) Js.value :=
  call "POST" ("/integrations/" ++ id ++ "/test") None o.

End Api.

(* ===================================================================== *)
(** ** The chat and insight stores ([lib/store.ts]) *)
(* ===================================================================== *)

Module ChatStore.

Inductive Role : Type := user | assistant | system.

Record Metadata : Type := {
  meta_query : option string;
  meta_results : option Js.value;
  meta_visualization : option string
}.

Record ChatMessage : Type := {
  id : string;
  role : Role;
  content : string;
  timestamp : Z;
  metadata : option Metadata
}.

Record ChatState : Type := mkChat {
  messages : list ChatMessage;
  isLoading : bool;
  currentConversationId : option string
}.

Definition initial : ChatState := mkChat [] false None.

Definition addMessage (message : ChatMessage) (state : ChatState) : ChatState :=
  mkChat (messages state ++ [message]) (isLoading state) (currentConversationId state).

Definition setMessages (ms : list ChatMessage) (state : ChatState) : ChatState :=
  mkChat ms (isLoading state) (currentConversationId state).

Definition setLoading (b : bool) (state : ChatState) : ChatState :=
  mkChat (messages state) b (currentConversationId state).

Definition clearMessages (state : ChatState) : ChatState :=
  mkChat [] (isLoading state) (currentConversationId state).

Definition setConversationId (i : option string) (state : ChatState) : ChatState :=
  mkChat (messages state) (isLoading state) i.

End ChatStore.

Module InsightStore.

Inductive InsightType : Type := trend | anomaly | correlation | summary.

Record Insight : Type := {
  id : string;
  dataSourceId : string;
  title : string;
  description : string;
  type : InsightType;
  data : Js.value;
  createdAt : Z
}.

Record InsightState : Type := mkInsights {
  insights : list Insight;
  isGenerating : bool
}.

Definition initial : InsightState := mkInsights [] false.

Definition addInsight (insight : Insight) (state : InsightState) : InsightState :=
  mkInsights (insights state ++ [insight]) (isGenerating state).

Definition setInsights (l : list Insight) (state : InsightState) : InsightState :=
  mkInsights l (isGenerating state).

Definition setGenerating (b : bool) (state : InsightState) : InsightState :=
  mkInsights (insights state) b.

Definition removeInsight (i : string) (state : InsightState) : InsightState :=
  mkInsights (filter (fun x => negb (id x =? i)) (insights state)) (isGenerating state).

End InsightStore.

(* ===================================================================== *)
(** ** Chat page ([ChatPage]) *)
(* ===================================================================== *)

Module Chat.

Local Open Scope eff_scope.

Inductive Role : Type := user | assistant.

Record Message : Type := mkMessage {
  id : string;
  role : Role;
  content : string;
  timestamp : Z;
  query : option string;
  results : option (list Js.value)
}.

Definition suggestedQuestions : list string :=
  [ "What are the top 10 customers by revenue?";
    "Show me the monthly sales trend for 2024";
    "Which products have the highest return rate?";
    "What's the average order value by region?" ].

Record State : Type := mkState {
  messages : list Message;
  input : string;
  isLoading : bool;
  selectedDataSource : string
}.

Definition initial : State := mkState [] "" false "".

Inductive Setter : Type :=
| AppendMessage (m : Message)          (* [setMessages(prev => [...prev, m])] *)
| SetInput (s : string)
| SetIsLoading (b : bool)
| SetSelectedDataSource (s : string).

Definition apply (u : Setter) (st : State) : State :=
  match u with
  | AppendMessage m =>
      mkState (messages st ++ [m]) (input st) (isLoading st) (selectedDataSource st)
  | SetInput s => mkState (messages st) s (isLoading st) (selectedDataSource st)
  | SetIsLoading b => mkState (messages st) (input st) b (selectedDataSource st)
  | SetSelectedDataSource s => mkState (messages st) (input st) (isLoading st) s
  end.

Definition dq : string := String (ascii_of_nat 34) EmptyString.
Definition nl : string := String (ascii_of_nat 10) EmptyString.

(** The text of the simulated answer. *)
Definition answer_text (input : string) : string :=
  "Based on your question about " ++ dq ++ input ++ dq ++
  ", I've analyzed the data and here's what I found:" ++ nl ++ nl ++
  "The query reveals interesting patterns in your data. Here are the key insights:" ++
  nl ++ nl ++
  "1. **Top Performers**: The data shows a clear trend of increasing engagement" ++ nl ++
  "2. **Key Metrics**: Average values are within expected ranges" ++ nl ++
  "3. **Recommendations**: Consider optimizing based on the patterns observed".

Definition answer_query : string :=
  "SELECT customer_name, SUM(revenue) as total_revenue" ++ nl ++
  "FROM orders o" ++ nl ++
  "JOIN customers c ON o.customer_id = c.id" ++ nl ++
  "GROUP BY customer_name" ++ nl ++
  "ORDER BY total_revenue DESC" ++ nl ++
  "LIMIT 10;".

Definition revenue_row (customer : string) (revenue : Z) : Js.value :=
  Js.Obj [("customer_name", Js.Str customer); ("total_revenue", Js.Num revenue)].

Definition answer_results : list Js.value :=
  [ revenue_row "Acme Corp" 125000; revenue_row "TechStart Inc" 98500;
    revenue_row "Global Traders" 87200; revenue_row "DataFlow LLC" 76800;
    revenue_row "CloudNine" 65400 ].

Definition userMessage (st : State) (now : Z) : Message :=
  mkMessage (Js.string_of_Z now) user (input st) now None None.

Definition assistantMessage (st : State) (now : Z) : Message :=
  mkMessage (Js.string_of_Z (now + 1)) assistant (answer_text (input st)) now
            (Some answer_query) (Some answer_results).

(** [handleSend]; [sent] and [answered] are the clock readings when the
    message is sent and when the simulated answer arrives. *)
Definition handleSend (st : State) (sent answered : Z) : Eff (Setter := Setter) unit :=
  if negb (Js.truthy (Js.Str (Js.trim (input st))))
     || negb (Js.truthy (Js.Str (selectedDataSource st)))
  then ret tt
  else
    emit (Update (AppendMessage (userMessage st sent))) ;;
    emit (Update (SetInput "")) ;;
    emit (Update (SetIsLoading true)) ;;
    emit (Sleep 1500) ;;
    emit (Update (AppendMessage (assistantMessage st answered))) ;;
    emit (Update (SetIsLoading false)).

(** [handleSuggestionClick]. *)
Definition handleSuggestionClick (question : string) : Eff (Setter := Setter) unit :=
  emit (Update (SetInput question)).

(** [disabled] of the send button. *)
Definition send_disabled (st : State) : bool :=
  negb (Js.truthy (Js.Str (Js.trim (input st))))
  || negb (Js.truthy (Js.Str (selectedDataSource st)))
  || isLoading st.

(** What the chat area shows while the transcript is empty. *)
Inductive EmptyChat : Type :=
| Suggestions (questions : list string)
| SelectSourceFirst.

Definition render_empty (st : State) : option EmptyChat :=
  match messages st with
  | [] => Some (if Js.truthy (Js.Str (selectedDataSource st))
                then Suggestions suggestedQuestions else SelectSourceFirst)
  | _ :: _ => None
  end.

Definition asking : State := mkState [] " top customers? " false "1".

End Chat.

(* ===================================================================== *)
(** * Properties *)
(* ===================================================================== *)

(** ** Facts about the built-ins *)

Lemma nonempty_truthy (s : string) : s <> "" -> Js.truthy (Js.Str s) = true.
Proof.
  intros H. simpl. apply negb_true_iff. now apply String.eqb_neq.
Qed.

Lemma empty_falsy (s : string) : Js.truthy (Js.Str s) = false -> s = "".
Proof.
  simpl. intros H. apply negb_false_iff in H. now apply String.eqb_eq.
Qed.

Lemma string_length_ind (P : string -> Prop) :
  (forall s, (forall t, (String.length t < String.length s)%nat -> P t) -> P s) ->
  forall s, P s.
Proof.
  intros H s.
  assert (G : forall n t, (String.length t < n)%nat -> P t).
  { induction n as [|n IH]; intros t Ht; [lia|].
    apply H. intros u Hu. apply IH. lia. }
  apply (G (S (String.length s))). lia.
Qed.


Lemma all_whitespace_trimStart (s : string) :
  Js.all_whitespace (Js.trimStart s) = Js.all_whitespace s.
Proof.
  induction s as [s IH] using string_length_ind.
  destruct s as [|c1 r1]; [reflexivity|].
  cbn [Js.trimStart].
  destruct (Js.is_whitespace1 c1) eqn:E1.
  { cbn [Js.all_whitespace]. rewrite E1. apply IH. simpl. lia. }
  destruct r1 as [|c2 r2]; [reflexivity|].
  destruct (Js.is_whitespace2 c1 c2) eqn:E2.
  { cbn [Js.all_whitespace]. rewrite E1, E2. apply IH. simpl. lia. }
  destruct r2 as [|c3 r3]; [reflexivity|].
  destruct (Js.is_whitespace3 c1 c2 c3) eqn:E3; [|reflexivity].
  cbn [Js.all_whitespace]. rewrite E1, E2, E3. cbn [andb]. apply IH. simpl. lia.
Qed.

(** The trailing white space is all of a string exactly when the string
    is white space only. *)
Lemma trimEnd_empty_iff (s : string) :
  Js.trimEnd s = "" <-> Js.all_whitespace s = true.
Proof.
  destruct s as [|c rest]; [split; reflexivity|].
  cbn [Js.trimEnd]. destruct (Js.all_whitespace (String c rest)); split; congruence.
Qed.

Lemma trim_empty_iff (s : string) :
  Js.trim s = "" <-> Js.all_whitespace s = true.
Proof.
  unfold Js.trim. rewrite trimEnd_empty_iff. now rewrite all_whitespace_trimStart.
Qed.




Example toString_array :
  Js.toString (Js.Arr [Js.Num 1; Js.Null; Js.Str "a"; Js.Num (-20)]) = "1,,a,-20".
Proof. reflexivity. Qed.

Example trim_example : Js.trim "  SELECT 1;  " = "SELECT 1;".
Proof. reflexivity. Qed.

Example trim_unicode_examples :
  Js.trim (Js.nbsp ++ " a b" ++ Js.ideographic_space ++ " ") = "a b"
  /\ Js.trim (Js.nbsp ++ Js.ideographic_space) = ""
  /\ Js.trim Js.zero_width_space = Js.zero_width_space
  /\ Js.all_whitespace Js.zero_width_space = false
  /\ Js.length (Js.nbsp ++ "ab" ++ Js.ideographic_space) = 4.
Proof. repeat split; vm_compute; reflexivity. Qed.

Example parseInt_examples :
  DataSources.parseInt "5432" = Some (Js.Num 5432) /\
  DataSources.parseInt "" = None /\
  DataSources.parseInt " -12px" = Some (Js.Num (-12)) /\
  DataSources.parseInt "0x1F" = Some (Js.Num 31) /\
  DataSources.parseInt "9007199254740993" = Some (Js.Num 9007199254740992) /\
  DataSources.port_value "0" = Js.Undefined.
Proof. repeat split; vm_compute; reflexivity. Qed.


Lemma array_map_ok {B} (expr : string) (l : list Js.value)
      (f : Js.value -> Js.result B) (ys : list B) :
  map f l = map inr ys -> array_map expr (Js.Arr l) f = inr ys.
Proof.
  revert ys. induction l as [|x l IH]; intros [|y ys] H; try discriminate.
  - reflexivity.
  - simpl in H. injection H as Hx Hl.
    specialize (IH ys Hl). simpl in *. rewrite Hx, IH. reflexivity.
Qed.

Lemma array_map_total {B} (expr : string) (l : list Js.value) (g : Js.value -> B) :
  array_map expr (Js.Arr l) (fun x => inr (g x)) = inr (map g l).
Proof.
  apply array_map_ok. now rewrite map_map.
Qed.

(* --------------------------------------------------------------------- *)
(** ** Query execution *)
(* --------------------------------------------------------------------- *)

Section ExplorerProperties.
Import Explorer.
Variable json_text : Js.value -> string.

Lemma guard_passes (st : State) :
  Js.trim (query st) <> "" -> selectedDataSource st <> "" ->
  negb (Js.truthy (Js.Str (Js.trim (query st))))
  || negb (Js.truthy (Js.Str (selectedDataSource st))) = false.
Proof.
  intros Hq Hs. now rewrite !nonempty_truthy.
Qed.

(** On a non-success response the body of the [try] always ends in a
    throw, after the request and before any state update. *)
Lemma failed_query_actions (st : State) (json : Js.result Js.value) (t0 t1 : Z) :
  Js.trim (query st) <> "" -> selectedDataSource st <> "" ->
  exists e,
    handleExecuteQuery json_text st (Response false json) t0 t1 =
    ([Update (SetIsExecuting true); Fetch (query_request st);
      ConsoleError "Query error:" e;
      ToastError (Js.Str (Js.message_or e "Failed to execute query"));
      Update (SetIsExecuting false)], inr tt)
    /\ match json with
       | inl e' => e = e'
       | inr error =>
           match errorMessage json_text error with
           | inl e' => e = e'
           | inr m => e = Js.new_Error m
           end
       end.
Proof.
  intros Hq Hs. unfold handleExecuteQuery. rewrite (guard_passes st Hq Hs).
  destruct json as [e'|error]; simpl.
  - exists e'. split; reflexivity.
  - destruct (errorMessage json_text error) as [e'|m]; simpl.
    + exists e'. split; reflexivity.
    + exists (Js.new_Error m). split; reflexivity.
Qed.

(** On a success response whose body is an object, the handler stores
    [columns] and [rows] as received. *)
Lemma successful_query_actions
      (st : State) (fs : list (string * Js.value)) (t0 t1 : Z) :
  Js.trim (query st) <> "" -> selectedDataSource st <> "" ->
  handleExecuteQuery json_text st (Response true (inr (Js.Obj fs))) t0 t1 =
  ([Update (SetIsExecuting true); Fetch (query_request st);
    Update (SetColumns (Js.or_else (Js.lookup "columns" fs) (Js.Arr [])));
    Update (SetResults (Js.or_else (Js.lookup "rows" fs) (Js.Arr [])));
    Update (SetExecutionTime (t1 - t0));
    ToastSuccess ("Query executed successfully (" ++
                  Js.toString (Js.or_else (Js.opt_prop (Js.lookup "rows" fs) "length")
                                          (Js.Num 0)) ++ " rows)");
    Update (SetIsExecuting false)], inr tt).
Proof.
  intros Hq Hs. unfold handleExecuteQuery. rewrite (guard_passes st Hq Hs).
  reflexivity.
Qed.

(** C4. When the query text is empty or white space only, or no data
    source is selected, [handleExecuteQuery] returns at once: it performs
    no action at all, so no request is issued and the page state
    (results, columns, executionTime, isExecuting and the rest) is what it
    was, whatever the network would have answered. *)
Theorem blank_query_is_rejected (st : State) (net : FetchOutcome) (t0 t1 : Z) :
  Js.all_whitespace (query st) = true \/ selectedDataSource st = "" ->
  let h := handleExecuteQuery json_text st net t0 t1 in
  h = ([], inr tt)
  /\ requests (actions h) = []
  /\ run apply st (actions h) = st.
Proof.
  intros H h.
  assert (E : h = ([], inr tt)).
  { subst h. unfold handleExecuteQuery.
    destruct H as [H|H].
    - apply trim_empty_iff in H. rewrite H. reflexivity.
    - rewrite H. simpl. rewrite orb_true_r. reflexivity. }
  rewrite E. repeat split.
Qed.

(** C3. When the response to a submitted query is not a success, the
    handler raises exactly one error notification and no success
    notification, and the state it leaves is the state before with
    [isExecuting] cleared: columns, results and execution time are
    untouched.  The notification carries [detail] when the body has a
    string [detail], and [detail.message] when [detail] is an object with
    a non-empty string [message]. *)
Theorem failed_query_keeps_results
        (st : State) (json : Js.result Js.value) (t0 t1 : Z) :
  Js.trim (query st) <> "" -> selectedDataSource st <> "" ->
  let h := handleExecuteQuery json_text st (Response false json) t0 t1 in
  let st' := run apply st (actions h) in
  st' = apply (SetIsExecuting false) st
  /\ columns st' = columns st
  /\ results st' = results st
  /\ executionTime st' = executionTime st
  /\ requests (actions h) = [query_request st]
  /\ (exists m, error_toasts (actions h) = [Js.Str m])
  /\ success_toasts (actions h) = []
  /\ (forall fs s,
        json = inr (Js.Obj fs) -> Js.lookup "detail" fs = Js.Str s ->
        error_toasts (actions h) = [Js.Str s])
  /\ (forall fs d m,
        json = inr (Js.Obj fs) -> Js.lookup "detail" fs = Js.Obj d ->
        Js.lookup "message" d = Js.Str m -> m <> "" ->
        error_toasts (actions h) = [Js.Str m]).
Proof.
  intros Hq Hs h st'.
  destruct (failed_query_actions st json t0 t1 Hq Hs) as (e & Eh & He).
  subst st' h. rewrite Eh. cbn [actions fst run fold_left requests error_toasts success_toasts].
  repeat split.
  - eauto.
  - intros fs s -> Hd.
    unfold errorMessage in He. cbn [Js.get_prop] in He. rewrite Hd in He.
    cbn in He. subst e. reflexivity.
  - intros fs d m -> Hd Hm Hne.
    unfold errorMessage in He. cbn [Js.get_prop] in He. rewrite Hd in He.
    cbn [Js.typeof Js.opt_prop Js.get_prop] in He.
    replace ("object" =? "string") with false in He by reflexivity.
    rewrite Hm in He. rewrite (nonempty_truthy m Hne) in He.
    subst e. reflexivity.
Qed.
End ExplorerProperties.

(** Rendering a result whose columns are named and whose rows are arrays. *)
Lemma render_results_table (st : Explorer.State) (cs : list Js.value)
      (names : list string) (rows : list (list Js.value)) :
  Explorer.columns st = Js.Arr cs ->
  map Explorer.render_th cs = map inr names ->
  Explorer.results st = Js.Arr (map Js.Arr rows) ->
  Explorer.render_results st =
  inr (Explorer.ResultsView
         (Js.string_of_Z (Z.of_nat (List.length rows)))
         (match Explorer.executionTime st with
          | Some ms => Js.string_of_Z ms ++ "ms"
          | None => "ms"
          end)
         {| Explorer.header := names;
            Explorer.body := map (map Explorer.render_cell) rows |}).
Proof.
  intros Hc Hn Hr. unfold Explorer.render_results. rewrite Hr, Hc.
  cbn [Js.truthy Js.get_prop]. replace ("length" =? "length") with true by reflexivity.
  cbn [render_child]. rewrite length_map.
  rewrite (array_map_ok "columns" cs Explorer.render_th names Hn).
  rewrite (array_map_ok "results" (map Js.Arr rows) Explorer.render_tr
                        (map (map Explorer.render_cell) rows)).
  - reflexivity.
  - rewrite !map_map. apply map_ext. intros cells.
    unfold Explorer.render_tr. apply array_map_total.
Qed.

(** C1 (as the code has it).  The handler stores the [columns] and [rows]
    of a success response as received, without checking one against the
    other.  When [columns] is an array of named columns and [rows] an array
    of arrays, the results card shows one header cell per column and, for
    each row, one cell per element of that row, in order; a rendered row
    has as many cells as there are header cells exactly when the row itself
    is as long as [columns]. *)
Theorem query_result_rendered_positionally
        (json_text : Js.value -> string) (st : Explorer.State)
        (fs : list (string * Js.value)) (cs : list Js.value)
        (names : list string) (rows : list (list Js.value)) (t0 t1 : Z) :
  Js.trim (Explorer.query st) <> "" -> Explorer.selectedDataSource st <> "" ->
  Js.lookup "columns" fs = Js.Arr cs ->
  map Explorer.render_th cs = map inr names ->
  Js.lookup "rows" fs = Js.Arr (map Js.Arr rows) ->
  let h := Explorer.handleExecuteQuery json_text st
                                       (Response true (inr (Js.Obj fs))) t0 t1 in
  let st' := run Explorer.apply st (actions h) in
  let shown := map (map Explorer.render_cell) rows in
  Explorer.columns st' = Js.Arr cs
  /\ Explorer.results st' = Js.Arr (map Js.Arr rows)
  /\ Explorer.render_results st' =
     inr (Explorer.ResultsView (Js.string_of_Z (Z.of_nat (List.length rows)))
                               (Js.string_of_Z (t1 - t0) ++ "ms")
                               {| Explorer.header := names; Explorer.body := shown |})
  /\ List.length names = List.length cs
  /\ (forall i cells,
        nth_error rows i = Some cells ->
        nth_error shown i = Some (map Explorer.render_cell cells)
        /\ (List.length (map Explorer.render_cell cells) = List.length names
            <-> List.length cells = List.length cs)).
Proof.
  intros Hq Hs Hc Hn Hr h st' shown.
  assert (Ecols : Explorer.columns st' = Js.Arr cs).
  { subst st' h. rewrite (successful_query_actions json_text st fs t0 t1 Hq Hs).
    rewrite Hc. reflexivity. }
  assert (Erows : Explorer.results st' = Js.Arr (map Js.Arr rows)).
  { subst st' h. rewrite (successful_query_actions json_text st fs t0 t1 Hq Hs).
    rewrite Hr. reflexivity. }
  assert (Elen : List.length names = List.length cs).
  { rewrite <- (length_map (@inr Js.thrown string) names), <- Hn. apply length_map. }
  assert (Etime : Explorer.executionTime st' = Some (t1 - t0)%Z).
  { subst st' h. rewrite (successful_query_actions json_text st fs t0 t1 Hq Hs).
    reflexivity. }
  repeat split; try assumption.
  - rewrite (render_results_table st' cs names rows Ecols Hn Erows), Etime.
    reflexivity.
  - subst shown. now apply map_nth_error.
  - rewrite length_map. congruence.
  - rewrite length_map. congruence.
Qed.

Lemma query_result_rendered_positionally_witness :
  Explorer.render_results
    (run Explorer.apply Explorer.sample_state
         (actions (Explorer.handleExecuteQuery
                     (fun _ => "null") Explorer.sample_state
                     (Response true (inr Explorer.ragged_result)) 0 5)))
  = inr (Explorer.ResultsView "1" "5ms"
           {| Explorer.header := ["id"; "email"];
              Explorer.body := [[Explorer.CellNumber 1]] |}).
Proof.
  apply (query_result_rendered_positionally
           (fun _ => "null") Explorer.sample_state Explorer.ragged_fields
           Explorer.two_columns ["id"; "email"] [[Js.Num 1]] 0 5);
    solve [discriminate | reflexivity].
Defined.

(** C1 (as stated) fails: the page accepts and shows a result whose row is
    shorter than its column list, and a result whose rows are keyed records
    is accepted too and then breaks the rendering of the card. *)
Lemma query_result_rows_not_aligned :
  let after body :=
    run Explorer.apply Explorer.sample_state
        (actions (Explorer.handleExecuteQuery (fun _ => "null") Explorer.sample_state
                                              (Response true (inr body)) 0 5)) in
  Explorer.rows_aligned (Explorer.columns (after Explorer.ragged_result))
                        (Explorer.results (after Explorer.ragged_result)) = false
  /\ Explorer.render_results (after Explorer.ragged_result)
     = inr (Explorer.ResultsView "1" "5ms"
              {| Explorer.header := ["id"; "email"];
                 Explorer.body := [[Explorer.CellNumber 1]] |})
  /\ Explorer.rows_aligned (Explorer.columns (after Explorer.keyed_result))
                           (Explorer.results (after Explorer.keyed_result)) = false
  /\ Explorer.render_results (after Explorer.keyed_result)
     = inl (Js.ErrorExn "row.map is not a function").
Proof.
  repeat split; reflexivity.
Qed.

Lemma blank_query_is_rejected_witness :
  Js.all_whitespace (" " ++ Js.nbsp ++ Js.ideographic_space) = true /\
  requests (actions (Explorer.handleExecuteQuery
                       (fun _ => "null") Explorer.blank_state
                       (Response true (inr (Js.Obj []))) 0 5)) = [].
Proof.
  split; [reflexivity|].
  apply (blank_query_is_rejected (fun _ => "null") Explorer.blank_state
                                 (Response true (inr (Js.Obj []))) 0 5).
  left. reflexivity.
Defined.

Lemma failed_query_keeps_results_witness :
  let json := inr (Js.Obj [("detail", Js.Str "relation does not exist")]) in
  let h := Explorer.handleExecuteQuery (fun _ => "null") Explorer.sample_state
                                       (Response false json) 0 5 in
  Explorer.results (run Explorer.apply Explorer.sample_state (actions h))
  = Js.Arr [Js.Arr [Js.Num 7]]
  /\ error_toasts (actions h) = [Js.Str "relation does not exist"].
Proof.
  intros json h.
  destruct (failed_query_keeps_results (fun _ => "null") Explorer.sample_state json 0 5)
    as (_ & _ & Hr & _ & _ & _ & _ & Hs & _).
  - discriminate.
  - discriminate.
  - split; [exact Hr | apply (Hs _ _ eq_refl eq_refl)].
Defined.

(* --------------------------------------------------------------------- *)
(** ** The connection form *)
(* --------------------------------------------------------------------- *)

Section DataSourcesProperties.
Import DataSources.

Lemma connectionInputs_shape (t : string) :
  t <> "" ->
  connectionInputs t =
  InName :: (if t =? "csv" then [InFile]
             else if t =? "rest_api" then [InUrl; InApiKey]
             else network_inputs).
Proof.
  intros Ht. unfold connectionInputs. rewrite (nonempty_truthy t Ht).
  destruct (t =? "csv") eqn:Ecsv; destruct (t =? "rest_api") eqn:Erest;
    try reflexivity.
  apply String.eqb_eq in Ecsv. apply String.eqb_eq in Erest. congruence.
Qed.

Ltac absent :=
  let H := fresh in
  intros H; repeat (destruct H as [H|H]; [discriminate|]); exact H.

(** C2. Whatever type is selected, the dialog shows the connection name;
    for [csv] and [rest_api] it shows none of host, port, database,
    username and password; for every other type (the listed ones being
    postgresql, mysql, mongodb, sqlite, snowflake, bigquery and redshift)
    it shows all five and neither the file input nor the url and API key
    inputs. *)
Theorem connection_inputs_follow_type (t : string) :
  t <> "" ->
  let shown := connectionInputs t in
  In InName shown
  /\ ((t = "csv" \/ t = "rest_api") ->
      forall i, In i network_inputs -> ~ In i shown)
  /\ (t <> "csv" -> t <> "rest_api" ->
      shown = InName :: network_inputs
      /\ (forall i, In i network_inputs -> In i shown)
      /\ ~ In InFile shown /\ ~ In InUrl shown /\ ~ In InApiKey shown)
  /\ (t = "csv" -> shown = [InName; InFile])
  /\ (t = "rest_api" -> shown = [InName; InUrl; InApiKey])
  /\ Forall (fun ty => id ty <> "") dataSourceTypes.
Proof.
  intros Ht shown. subst shown. rewrite (connectionInputs_shape t Ht).
  split; [now left|]. split; [|split; [|split; [|split]]].
  - intros [-> | ->] i Hi; cbn;
      repeat (destruct Hi as [<-|Hi]; [absent|]); destruct Hi.
  - intros Hcsv Hrest.
    apply String.eqb_neq in Hcsv. apply String.eqb_neq in Hrest.
    rewrite Hcsv, Hrest. split; [reflexivity|].
    split; [intros i Hi; now right|].
    repeat split; absent.
  - intros ->. reflexivity.
  - intros ->. reflexivity.
  - repeat constructor; discriminate.
Qed.

(** C8. Selecting a type of the list records it as the selected type and
    sets the port field to that type's default port; the connection name
    and every other field of the form, and the rest of the page state,
    stay as they were. *)
Theorem type_select_sets_default_port (st : State) (ty : DataSourceType) :
  In ty dataSourceTypes ->
  let st' := run apply st (actions (handleTypeSelect (id ty))) in
  selectedType st' = id ty
  /\ f_port (formData st') = defaultPort ty
  /\ f_name (formData st') = f_name (formData st)
  /\ formData st' = set_field Kport (defaultPort ty) (formData st)
  /\ f_host (formData st') = f_host (formData st)
  /\ f_database (formData st') = f_database (formData st)
  /\ f_username (formData st') = f_username (formData st)
  /\ f_password (formData st') = f_password (formData st)
  /\ f_url (formData st') = f_url (formData st)
  /\ f_apiKey (formData st') = f_apiKey (formData st)
  /\ searchQuery st' = searchQuery st
  /\ isDialogOpen st' = isDialogOpen st
  /\ isConnecting st' = isConnecting st
  /\ dataSources st' = dataSources st.
Proof.
  intros Hin st'. subst st'. simpl in Hin.
  repeat (destruct Hin as [<-|Hin]; [cbn; repeat split|]).
  destruct Hin.
Qed.

(** Once a name has been entered, [handleConnect] first marks the page
    as connecting and then sends the creation request. *)
Lemma handleConnect_sends_create (st : State) (created reloaded : FetchOutcome) :
  f_name (formData st) <> "" ->
  exists rest r,
    handleConnect st created reloaded =
    (Update (SetIsConnecting true) :: Fetch (create_request st) :: rest, r).
Proof.
  intros Hn. unfold handleConnect. rewrite (nonempty_truthy _ Hn).
  destruct created as [e|[|] json]; cbn -[loadDataSources create_request].
  - eexists; eexists; reflexivity.
  - destruct (loadDataSources reloaded) as [l [e|[]]];
      cbn -[create_request]; eexists; eexists; reflexivity.
  - destruct json as [e|error]; cbn -[create_request].
    + eexists; eexists; reflexivity.
    + destruct (Js.get_prop error "detail") as [e|detail]; cbn -[create_request];
        eexists; eexists; reflexivity.
Qed.

(** C10. With the CSV type selected and a connection name entered, the
    request that creates the data source carries
    [{name, type: "csv", config: {file_path: name}}]: the file path is the
    connection name.  The file picked in the upload input plays no part:
    the click does the same whatever was picked. *)
Theorem csv_config_is_connection_name
        (dom : Dom) (st : State) (created reloaded : FetchOutcome) :
  selectedType st = "csv" -> f_name (formData st) <> "" ->
  let h := onConnectClick dom st created reloaded in
  hd_error (requests (actions h)) =
  Some (mkRequest "POST" datasources_url
          (Some (Js.Obj [("name", Js.Str (f_name (formData st)));
                         ("type", Js.Str "csv");
                         ("config", Js.Obj [("file_path", Js.Str (f_name (formData st)))])])))
  /\ connectionConfig "csv" (formData st)
     = Js.Obj [("file_path", Js.Str (f_name (formData st)))]
  /\ forall dom', onConnectClick dom' st created reloaded = h.
Proof.
  intros Ht Hn h. subst h. unfold onConnectClick.
  destruct (handleConnect_sends_create st created reloaded Hn) as (rest & r & E).
  rewrite E. cbn [actions fst requests hd_error].
  unfold create_request. rewrite Ht. repeat split.
Qed.
End DataSourcesProperties.

Lemma connection_inputs_follow_type_witness :
  "csv" <> "" /\ ~ In DataSources.InHost (DataSources.connectionInputs "csv").
Proof.
  split; [discriminate|].
  destruct (connection_inputs_follow_type "csv") as (_ & H & _).
  - discriminate.
  - apply H; [now left | now left].
Defined.

Lemma type_select_sets_default_port_witness :
  DataSources.f_port
    (DataSources.formData
       (run DataSources.apply DataSources.csv_state
            (actions (DataSources.handleTypeSelect "redshift")))) = "5439"
  /\ DataSources.f_name
       (DataSources.formData
          (run DataSources.apply DataSources.csv_state
               (actions (DataSources.handleTypeSelect "redshift")))) = "sales-2024".
Proof.
  destruct (type_select_sets_default_port
              DataSources.csv_state (DataSources.mkType "redshift" "Redshift" "5439"))
    as (_ & Hp & Hn & _).
  - simpl. tauto.
  - split; [exact Hp | exact Hn].
Defined.

Lemma csv_config_is_connection_name_witness :
  hd_error (requests (actions (DataSources.onConnectClick
                                 DataSources.csv_dom DataSources.csv_state
                                 (Response true (inr (Js.Obj [])))
                                 (Response true (inr (Js.Arr []))))))
  = Some (mkRequest "POST" DataSources.datasources_url
            (Some (Js.Obj [("name", Js.Str "sales-2024");
                           ("type", Js.Str "csv");
                           ("config", Js.Obj [("file_path", Js.Str "sales-2024")])]))).
Proof.
  destruct (csv_config_is_connection_name
              DataSources.csv_dom DataSources.csv_state
              (Response true (inr (Js.Obj []))) (Response true (inr (Js.Arr []))))
    as (H & _).
  - reflexivity.
  - discriminate.
  - exact H.
Defined.

(* --------------------------------------------------------------------- *)
(** ** The data-source store *)
(* --------------------------------------------------------------------- *)

(** C5. [removeDataSource] keeps, in order, exactly the entries whose id
    differs from the given one; a selection with that id becomes [null], a
    selection with another id and an empty selection stay, so that no
    selection with the removed id is left; the other fields of the store are
    untouched. *)
Theorem removeDataSource_clears_selection (i : string) (state : Store.DataSourceState) :
  let s' := Store.removeDataSource i state in
  Store.dataSources s'
  = filter (fun ds => negb (Store.id ds =? i)) (Store.dataSources state)
  /\ (forall ds, In ds (Store.dataSources s')
                 <-> In ds (Store.dataSources state) /\ Store.id ds <> i)
  /\ (forall ds, Store.selectedDataSource state = Some ds -> Store.id ds = i ->
                 Store.selectedDataSource s' = None)
  /\ (forall ds, Store.selectedDataSource state = Some ds -> Store.id ds <> i ->
                 Store.selectedDataSource s' = Some ds)
  /\ (Store.selectedDataSource state = None -> Store.selectedDataSource s' = None)
  /\ (forall ds, Store.selectedDataSource s' = Some ds -> Store.id ds <> i)
  /\ Store.isConnecting s' = Store.isConnecting state
  /\ Store.error s' = Store.error state.
Proof.
  intros s'. subst s'. unfold Store.removeDataSource. cbn.
  split; [reflexivity|]. split; [|split; [|split; [|split; [|split]]]].
  - intros ds. rewrite filter_In, negb_true_iff, String.eqb_neq. reflexivity.
  - intros ds -> <-. cbn. now rewrite String.eqb_refl.
  - intros ds -> Hne. cbn. apply String.eqb_neq in Hne. now rewrite Hne.
  - intros ->. reflexivity.
  - intros ds. destruct (Store.selectedDataSource state) as [sel|]; cbn.
    + destruct (Store.id sel =? i) eqn:E; [discriminate|].
      intros [= <-]. now apply String.eqb_neq.
    + discriminate.
  - split; reflexivity.
Qed.

Lemma removeDataSource_clears_selection_witness :
  Store.removeDataSource "ds-1" Store.two_sources
  = Store.mkStore [Store.files] None false None.
Proof.
  destruct (removeDataSource_clears_selection "ds-1" Store.two_sources)
    as (Hl & _ & Hsel & _ & _ & _ & Hc & He).
  specialize (Hsel Store.prod eq_refl eq_refl).
  destruct (Store.removeDataSource "ds-1" Store.two_sources) as [l sel c e].
  cbn in *. now subst.
Defined.

(* --------------------------------------------------------------------- *)
(** ** Insights *)
(* --------------------------------------------------------------------- *)

Lemma string_of_Z_no_plus (n : Z) : String.prefix "+" (Js.string_of_Z n) = false.
Proof.
  unfold Js.string_of_Z. destruct (Z.to_int n) as [d|d]; destruct d; reflexivity.
Qed.

(** Opening the page while the backend lists no data source leads to the
    state [no_sources]. *)
Example mounted_without_sources :
  run Insights.apply Insights.initial
      (actions (Insights.onMount (Response true (inr (Js.Arr [])))))
  = Insights.no_sources.
Proof. reflexivity. Qed.

Section InsightsProperties.
Import Insights.
Variable date_toLocaleString : Js.value -> string.
Variable StringToNumber_positive : string -> bool.

Let render_metric := render_metric StringToNumber_positive.

(** The label and the value of a metric given as an object. *)
Lemma render_metric_label_value
      (fs : list (string * Js.value)) (lbl vt : string) :
  (Js.lookup "label" fs = Js.Str lbl /\ lbl <> ""
   \/ Js.truthy (Js.lookup "label" fs) = false /\ Js.lookup "name" fs = Js.Str lbl) ->
  render_child (Js.lookup "value" fs) = inr vt ->
  render_child (Js.or_else (Js.lookup "label" fs) (Js.lookup "name" fs)) = inr lbl.
Proof.
  intros [[Hl Hne] | [Hl Hn]] _; unfold Js.or_else.
  - rewrite Hl, (nonempty_truthy lbl Hne). reflexivity.
  - rewrite Hl, Hn. reflexivity.
Qed.

Lemma render_unit (fs : list (string * Js.value)) (u : string) :
  (Js.lookup "unit" fs = Js.Str u \/ Js.lookup "unit" fs = Js.Undefined /\ u = "") ->
  render_child (Js.or_else (Js.lookup "unit" fs) (Js.Str "")) = inr u.
Proof.
  intros [Hu | [Hu ->]]; rewrite Hu; unfold Js.or_else.
  - destruct (Js.truthy (Js.Str u)) eqn:E; [reflexivity|].
    apply empty_falsy in E. now subst.
  - reflexivity.
Qed.

(** C6. For a metric whose label is under [label] or, failing that, under
    [name], whose value can be shown and whose unit is a string or
    absent: a numeric [change] is shown with a leading [+] when positive
    and as it is otherwise, a string [change] is shown as it is, the unit
    is appended in both cases, and no badge is shown without a [change].
    The payloads [{label: "Growth", value: 15, change: 3}] and
    [{name: "Growth", value: 15, change: "+3"}] are displayed alike:
    Growth, 15, +3. *)
Theorem metric_display_tolerates_shapes
        (fs : list (string * Js.value)) (lbl vt u : string) :
  (Js.lookup "label" fs = Js.Str lbl /\ lbl <> ""
   \/ Js.truthy (Js.lookup "label" fs) = false /\ Js.lookup "name" fs = Js.Str lbl) ->
  render_child (Js.lookup "value" fs) = inr vt ->
  (Js.lookup "unit" fs = Js.Str u \/ Js.lookup "unit" fs = Js.Undefined /\ u = "") ->
  (forall n,
      Js.lookup "change" fs = Js.Num n ->
      render_metric (Js.Obj fs) =
      inr {| label_text := lbl; value_text := vt;
             change_badge :=
               Some {| variant := if (0 <? n)%Z then success else destructive;
                       badge_text :=
                         (if (0 <? n)%Z then "+" ++ Js.string_of_Z n
                          else Js.string_of_Z n) ++ u |} |})
  /\ (forall s,
         Js.lookup "change" fs = Js.Str s ->
         render_metric (Js.Obj fs) =
         inr {| label_text := lbl; value_text := vt;
                change_badge :=
                  Some {| variant := if String.prefix "+" s || StringToNumber_positive s
                                     then success else destructive;
                          badge_text := s ++ u |} |})
  /\ (Js.lookup "change" fs = Js.Undefined ->
      render_metric (Js.Obj fs) =
      inr {| label_text := lbl; value_text := vt; change_badge := None |})
  /\ render_metric growth_by_label = render_metric growth_by_name
  /\ render_metric growth_by_label =
     inr {| label_text := "Growth"; value_text := "15";
            change_badge := Some {| variant := success; badge_text := "+3" |} |}.
Proof.
  intros Hl Hv Hu.
  pose proof (render_metric_label_value fs lbl vt Hl Hv) as El.
  pose proof (render_unit fs u Hu) as Eu.
  subst render_metric. unfold Insights.render_metric. cbn [Js.get_prop].
  rewrite El, Hv.
  split; [|split; [|split; [|split]]].
  - intros n Hc. rewrite Hc, Eu. unfold change_expr, Number_positive.
    cbn [Js.toString]. rewrite string_of_Z_no_plus. cbn [orb].
    destruct (0 <? n)%Z; reflexivity.
  - intros s Hc. rewrite Hc, Eu. reflexivity.
  - intros Hc. rewrite Hc. reflexivity.
  - reflexivity.
  - reflexivity.
Qed.

(** C7 (as the code has it).  With an empty list of data sources,
    [handleGenerateInsights] only raises the notification asking to
    connect a data source: it sends no request and requests no state
    update.  On the page, once loaded and with no insight to show, the
    empty-state card carries the link to the data sources page in the
    place of its generate button, while the header keeps its
    Generate Insights button. *)
Theorem no_sources_no_generation (st : State) (net : FetchOutcome) :
  dataSources st = Js.Arr [] ->
  let h := handleGenerateInsights date_toLocaleString st net in
  h = ([ToastError (Js.Str "Please connect a data source first")], inr tt)
  /\ requests (actions h) = []
  /\ run apply st (actions h) = st
  /\ (isLoading st = false -> insights st = [] ->
      render StringToNumber_positive st =
      inr {| header := [ExportButton; GenerateInsightsButton (isGenerating st)];
             filters := map snd insightTypes;
             sourceOptions := [];
             body := EmptyState connect_first_message
                                (ConnectDataSourceLink "/datasources") |}).
Proof.
  intros Hd h.
  assert (E : h = ([ToastError (Js.Str "Please connect a data source first")], inr tt)).
  { subst h. unfold handleGenerateInsights. rewrite Hd. reflexivity. }
  rewrite E. repeat split.
  intros Hload Hins. unfold render, render_body, filteredInsights.
  rewrite Hd, Hload, Hins. cbn [array_map fold_right].
  destruct (selectedType st =? "all"); reflexivity.
Qed.
End InsightsProperties.

Lemma metric_display_tolerates_shapes_witness :
  Insights.render_metric (fun _ => false) Insights.growth_by_label
  = inr {| Insights.label_text := "Growth"; Insights.value_text := "15";
           Insights.change_badge :=
             Some {| Insights.variant := Insights.success;
                     Insights.badge_text := "+3" |} |}.
Proof.
  destruct (metric_display_tolerates_shapes
              (fun _ => false)
              [("label", Js.Str "Growth"); ("value", Js.Num 15); ("change", Js.Num 3)]
              "Growth" "15" "") as (H & _).
  - left. split; [reflexivity | discriminate].
  - reflexivity.
  - right. split; reflexivity.
  - exact (H 3%Z eq_refl).
Defined.

Lemma no_sources_no_generation_witness :
  requests (actions (Insights.handleGenerateInsights
                       (fun _ => "1/1/2026") Insights.no_sources
                       (Response true (inr (Js.Arr []))))) = []
  /\ Insights.render_body (fun _ => false) Insights.no_sources
     = inr (Insights.EmptyState Insights.connect_first_message
                                (Insights.ConnectDataSourceLink "/datasources")).
Proof.
  destruct (no_sources_no_generation
              (fun _ => "1/1/2026") (fun _ => false) Insights.no_sources
              (Response true (inr (Js.Arr []))) eq_refl) as (_ & Hr & _ & Hv).
  split; [exact Hr|].
  specialize (Hv eq_refl eq_refl).
  unfold Insights.render in Hv. cbn [array_map fold_right Insights.dataSources Insights.no_sources] in Hv.
  destruct (Insights.render_body (fun _ => false) Insights.no_sources) as [e|b];
    [discriminate|].
  now injection Hv as ->.
Defined.

(** C7 (as stated) fails: with no data source the page still shows, and
    leaves enabled, the Generate Insights button of its header, next to the
    connect link of the empty-state card. *)
Lemma generate_control_shown_without_sources :
  exists v,
    Insights.render (fun _ => false) Insights.no_sources = inr v
    /\ In (Insights.GenerateInsightsButton false) (Insights.header v)
    /\ Insights.body v = Insights.EmptyState Insights.connect_first_message
                                             (Insights.ConnectDataSourceLink "/datasources").
Proof.
  eexists. split; [reflexivity|]. split; [right; left; reflexivity | reflexivity].
Qed.

(* --------------------------------------------------------------------- *)
(** ** Integrations *)
(* --------------------------------------------------------------------- *)




(* ===================================================================== *)
(** * Further properties of the pages and stores *)
(* ===================================================================== *)

(* --------------------------------------------------------------------- *)
(** ** Query execution: every outcome *)
(* --------------------------------------------------------------------- *)

Lemma is_whitespace3_semicolon (c1 c2 : ascii) : Js.is_whitespace3 c1 c2 ";" = false.
Proof.
  unfold Js.is_whitespace3. cbn [N_of_ascii].
  repeat match goal with
         | |- context [if ?b then _ else _] => destruct b
         end; rewrite ?andb_false_r; reflexivity.
Qed.

Lemma all_whitespace_semicolon (s : string) : Js.all_whitespace (s ++ ";") = false.
Proof.
  induction s as [s IH] using string_length_ind.
  destruct s as [|c1 r1]; [reflexivity|].
  destruct r1 as [|c2 r2]; [|destruct r2 as [|c3 r3]].
  - change (String c1 "" ++ ";") with (String c1 ";"). cbn [Js.all_whitespace].
    destruct (Js.is_whitespace1 c1); [reflexivity|].
    unfold Js.is_whitespace2.
    change (N_of_ascii ";" =? 160)%N with false. now rewrite andb_false_r.
  - change (String c1 (String c2 "") ++ ";") with (String c1 (String c2 ";")).
    cbn [Js.all_whitespace].
    destruct (Js.is_whitespace1 c1); [apply (IH (String c2 "")); simpl; lia|].
    destruct (Js.is_whitespace2 c1 c2); [reflexivity|].
    now rewrite is_whitespace3_semicolon.
  - change (String c1 (String c2 (String c3 r3)) ++ ";")
      with (String c1 (String c2 (String c3 (r3 ++ ";")))).
    cbn [Js.all_whitespace].
    destruct (Js.is_whitespace1 c1);
      [apply (IH (String c2 (String c3 r3))); simpl; lia|].
    destruct (Js.is_whitespace2 c1 c2); [apply (IH (String c3 r3)); simpl; lia|].
    rewrite (IH r3) by (simpl; lia). apply andb_false_r.
Qed.

Lemma trimEnd_keeps_semicolon (s : string) : Js.trimEnd (s ++ ";") = s ++ ";".
Proof.
  induction s as [|a s IH]; [reflexivity|].
  change (String a s ++ ";") with (String a (s ++ ";")). cbn [Js.trimEnd].
  change (String a (s ++ ";")) with (String a s ++ ";") at 1.
  now rewrite all_whitespace_semicolon, IH.
Qed.

Lemma append_last (s t : string) (c : ascii) :
  s ++ (t ++ String c "") = (s ++ t) ++ String c "".
Proof.
  induction s as [|a s IH]; simpl; [reflexivity | now rewrite IH].
Qed.

(** The one request of a query that passes the guard. *)
Lemma execute_query_request
      (json_text : Js.value -> string) (st : Explorer.State)
      (net : FetchOutcome) (t0 t1 : Z) :
  Js.trim (Explorer.query st) <> "" -> Explorer.selectedDataSource st <> "" ->
  requests (actions (Explorer.handleExecuteQuery json_text st net t0 t1))
  = [Explorer.query_request st].
Proof.
  intros Hq Hs.
  destruct net as [e|[|] json].
  - unfold Explorer.handleExecuteQuery. rewrite (guard_passes st Hq Hs). reflexivity.
  - unfold Explorer.handleExecuteQuery. rewrite (guard_passes st Hq Hs).
    destruct json as [e|v]; [reflexivity|]. destruct v; reflexivity.
  - destruct (failed_query_actions json_text st json t0 t1 Hq Hs) as (e & Eh & _).
    rewrite Eh. reflexivity.
Qed.

(** X1. Once the guard is passed, [handleExecuteQuery] sends exactly one
    request and never throws, whatever comes back (a rejected fetch, a
    non-success status, a success status with any body, parsable or not);
    it raises exactly one notification, leaves [isExecuting] cleared, and
    unless that notification is the success one the state is the state
    before with [isExecuting] cleared. *)
Theorem execute_query_always_settles
        (json_text : Js.value -> string) (st : Explorer.State)
        (net : FetchOutcome) (t0 t1 : Z) :
  Js.trim (Explorer.query st) <> "" -> Explorer.selectedDataSource st <> "" ->
  let h := Explorer.handleExecuteQuery json_text st net t0 t1 in
  let st' := run Explorer.apply st (actions h) in
  snd h = inr tt
  /\ requests (actions h) = [Explorer.query_request st]
  /\ Explorer.isExecuting st' = false
  /\ (List.length (error_toasts (actions h))
      + List.length (success_toasts (actions h)) = 1)%nat
  /\ (success_toasts (actions h) = [] ->
      st' = Explorer.apply (Explorer.SetIsExecuting false) st).
Proof.
  intros Hq Hs h st'.
  destruct net as [e|[|] json].
  - subst st' h. unfold Explorer.handleExecuteQuery.
    rewrite (guard_passes st Hq Hs). cbn. repeat split.
  - destruct json as [e|v].
    + subst st' h. unfold Explorer.handleExecuteQuery.
      rewrite (guard_passes st Hq Hs). cbn. repeat split.
    + subst st' h. unfold Explorer.handleExecuteQuery.
      rewrite (guard_passes st Hq Hs).
      destruct v; cbn; repeat split; discriminate.
  - destruct (failed_query_actions json_text st json t0 t1 Hq Hs) as (e & Eh & _).
    subst st' h. rewrite Eh. cbn. repeat split.
Qed.

Lemma execute_query_always_settles_witness :
  let h := Explorer.handleExecuteQuery (fun _ => "null") Explorer.sample_state
                                       (Response true (inr Js.Null)) 0 5 in
  Explorer.results (run Explorer.apply Explorer.sample_state (actions h))
  = Js.Arr [Js.Arr [Js.Num 7]]
  /\ List.length (error_toasts (actions h)) = 1%nat.
Proof.
  intros h.
  destruct (execute_query_always_settles (fun _ => "null") Explorer.sample_state
                                         (Response true (inr Js.Null)) 0 5)
    as (_ & _ & _ & Hn & Hst).
  - discriminate.
  - discriminate.
  - fold h in Hn, Hst. split.
    + rewrite (Hst eq_refl). reflexivity.
    + replace (success_toasts (actions h)) with (@nil string) in Hn by reflexivity.
      simpl in Hn. simpl. lia.
Defined.

(** X2. The message taken from an object body of a failed query never
    fails to be computed; a string [detail] is used as it is (even empty),
    and otherwise the first truthy one of [detail.message], [message] and
    the JSON text of [detail] is used, with ["Query execution failed"] as
    the last resort, so that the message is then never empty.  In
    particular, when neither [detail.message] nor [message] is truthy and
    [detail] is present, the message is the JSON text of [detail] (the
    fallback only if that text were empty); when [detail] is absent as
    well, it is the fallback. *)
Theorem error_message_precedence
        (json_text : Js.value -> string) (fs : list (string * Js.value)) :
  let detail := Js.lookup "detail" fs in
  exists m,
    Explorer.errorMessage json_text (Js.Obj fs) = inr m
    /\ (forall s, detail = Js.Str s -> m = Js.Str s)
    /\ (Js.typeof detail <> "string" ->
        Js.truthy m = true
        /\ (Js.truthy (Js.opt_prop detail "message") = true ->
            m = Js.opt_prop detail "message")
        /\ (Js.truthy (Js.opt_prop detail "message") = false ->
            Js.truthy (Js.lookup "message" fs) = true ->
            m = Js.lookup "message" fs)
        /\ (Js.truthy (Js.opt_prop detail "message") = false ->
            Js.truthy (Js.lookup "message" fs) = false ->
            detail <> Js.Undefined ->
            m = (if json_text detail =? "" then Js.Str "Query execution failed"
                 else Js.Str (json_text detail)))
        /\ (detail = Js.Undefined -> Js.truthy (Js.lookup "message" fs) = false ->
            m = Js.Str "Query execution failed")).
Proof.
  intros detail. subst detail. unfold Explorer.errorMessage. cbn [Js.get_prop].
  generalize (Js.lookup "detail" fs) as detail. intros detail.
  destruct (Js.typeof detail =? "string") eqn:Ety.
  - exists detail. split; [reflexivity|]. split; [tauto|].
    intros H. apply String.eqb_eq in Ety. contradiction.
  - assert (Hns : forall s, detail <> Js.Str s).
    { intros s E. rewrite E in Ety. discriminate. }
    destruct (Js.truthy (Js.opt_prop detail "message")) eqn:E1.
    + eexists. split; [reflexivity|]. split; [intros s E; now apply Hns in E|].
      intros _. split; [exact E1|]. split; [reflexivity|]. split; [discriminate|].
      split; [discriminate|].
      intros Hd. rewrite Hd in E1. discriminate.
    + destruct (Js.truthy (Js.lookup "message" fs)) eqn:E2.
      * eexists. split; [reflexivity|]. split; [intros s E; now apply Hns in E|].
        intros _. split; [exact E2|]. split; [discriminate|]. split; [reflexivity|].
        split; [intros _ H; discriminate H | discriminate].
      * eexists. split; [reflexivity|]. split; [intros s E; now apply Hns in E|].
        intros _. split; [|split; [discriminate|split; [discriminate|split]]].
        -- unfold Js.or_else.
           destruct (Js.truthy (Explorer.JSON_stringify json_text detail)) eqn:E3;
             [exact E3 | reflexivity].
        -- intros _ _ Hd. unfold Js.or_else.
           destruct detail; try congruence; cbn [Explorer.JSON_stringify Js.truthy];
             match goal with
             | |- context [(?t =? "")] => destruct (t =? "")
             end; reflexivity.
        -- intros -> _. reflexivity.
Qed.

(** X3. A click on a table of the schema browser selects it and fills the
    editor with [SELECT * FROM <table> LIMIT 100;], the table name being
    copied in as it is; with a data source selected, running the query
    right away sends exactly that text to that data source's query
    endpoint. *)
Theorem table_click_then_run
        (json_text : Js.value -> string) (st : Explorer.State) (tableName : string)
        (net : FetchOutcome) (t0 t1 : Z) :
  Explorer.selectedDataSource st <> "" ->
  let st1 := run Explorer.apply st (actions (Explorer.handleTableSelect tableName)) in
  let text := "SELECT * FROM " ++ tableName ++ " LIMIT 100;" in
  Explorer.selectedTable st1 = tableName
  /\ Explorer.query st1 = text
  /\ Explorer.results st1 = Explorer.results st
  /\ requests (actions (Explorer.handleExecuteQuery json_text st1 net t0 t1))
     = [mkRequest "POST" (Explorer.query_url (Explorer.selectedDataSource st))
                  (Some (Js.Obj [("query", Js.Str text)]))].
Proof.
  intros Hs st1 text.
  assert (Etrim : Js.trim text = text).
  { subst text. unfold Js.trim.
    change (Js.trimStart ("SELECT * FROM " ++ tableName ++ " LIMIT 100;"))
      with ("SELECT * FROM " ++ tableName ++ " LIMIT 100;").
    change (" LIMIT 100;") with (" LIMIT 100" ++ String ";" "").
    rewrite !append_last. apply trimEnd_keeps_semicolon. }
  assert (Eq : Explorer.query st1 = text) by reflexivity.
  repeat split.
  rewrite (execute_query_request json_text st1 net t0 t1).
  - unfold Explorer.query_request. rewrite Eq, Etrim. reflexivity.
  - rewrite Eq, Etrim. subst text. discriminate.
  - exact Hs.
Qed.

Lemma table_click_then_run_witness :
  requests (actions (Explorer.handleExecuteQuery
                       (fun _ => "null")
                       (run Explorer.apply Explorer.blank_state
                            (actions (Explorer.handleTableSelect "order items")))
                       (NetworkFailure (Js.ErrorExn "Failed to fetch")) 0 5))
  = [mkRequest "POST" "http://localhost:8000/api/v1/datasources/ds-1/query"
               (Some (Js.Obj [("query", Js.Str "SELECT * FROM order items LIMIT 100;")]))].
Proof.
  destruct (table_click_then_run (fun _ => "null") Explorer.blank_state "order items"
                                 (NetworkFailure (Js.ErrorExn "Failed to fetch")) 0 5)
    as (_ & _ & _ & H).
  - discriminate.
  - exact H.
Defined.

(** X4. In the results table only the value [null] is shown as the NULL
    marker: an empty string, the string NULL, [undefined] and zero are all
    shown differently; and a cell is formatted as a number exactly when the
    value is a number. *)
Theorem null_cell_is_distinct (v : Js.value) :
  (Explorer.render_cell v = Explorer.CellNull <-> v = Js.Null)
  /\ (forall n, Explorer.render_cell v = Explorer.CellNumber n <-> v = Js.Num n)
  /\ (forall s, Explorer.render_cell (Js.Str s) = Explorer.CellText s).
Proof.
  split; [|split].
  - split; [destruct v; cbn; intros H; try discriminate; reflexivity | now intros ->].
  - intros n. split; [destruct v; cbn; intros H; try discriminate; congruence
                     | now intros ->].
  - reflexivity.
Qed.

(** X5. A success response that carries no rows (the key absent, [null],
    or otherwise falsy) is shown as an empty table under its column
    headers, with a row count of 0 and the success notification, not as the
    "no results yet" placeholder. *)
Theorem empty_result_is_a_table
        (json_text : Js.value -> string) (st : Explorer.State)
        (fs : list (string * Js.value)) (cs : list Js.value)
        (names : list string) (t0 t1 : Z) :
  Js.trim (Explorer.query st) <> "" -> Explorer.selectedDataSource st <> "" ->
  Js.lookup "columns" fs = Js.Arr cs ->
  map Explorer.render_th cs = map inr names ->
  Js.truthy (Js.lookup "rows" fs) = false ->
  let h := Explorer.handleExecuteQuery json_text st
                                       (Response true (inr (Js.Obj fs))) t0 t1 in
  let st' := run Explorer.apply st (actions h) in
  Explorer.results st' = Js.Arr []
  /\ Explorer.render_results st' =
     inr (Explorer.ResultsView "0" (Js.string_of_Z (t1 - t0) ++ "ms")
                               {| Explorer.header := names; Explorer.body := [] |})
  /\ success_toasts (actions h) = ["Query executed successfully (0 rows)"]
  /\ error_toasts (actions h) = [].
Proof.
  intros Hq Hs Hc Hn Hr h st'.
  assert (Eh := successful_query_actions json_text st fs t0 t1 Hq Hs). fold h in Eh.
  assert (Erows : Js.or_else (Js.lookup "rows" fs) (Js.Arr []) = Js.Arr []).
  { unfold Js.or_else. now rewrite Hr. }
  assert (Elen : Js.or_else (Js.opt_prop (Js.lookup "rows" fs) "length") (Js.Num 0)
                 = Js.Num 0).
  { destruct (Js.lookup "rows" fs) as [| |b|n|i|s| |]; try discriminate; try reflexivity.
    - cbn in Hr. apply empty_falsy in Hr. now subst.  }
  assert (R : Explorer.results st' = Js.Arr []).
  { subst st'. rewrite Eh. cbn. exact Erows. }
  assert (C : Explorer.columns st' = Js.Arr cs).
  { subst st'. rewrite Eh. cbn. rewrite Hc. reflexivity. }
  assert (T : Explorer.executionTime st' = Some (t1 - t0)%Z).
  { subst st'. rewrite Eh. reflexivity. }
  split; [exact R|]. split; [|split].
  - rewrite (render_results_table st' cs names [] C Hn R), T. reflexivity.
  - rewrite Eh. cbn. rewrite Elen. reflexivity.
  - rewrite Eh. reflexivity.
Qed.

Lemma empty_result_is_a_table_witness :
  Explorer.render_results
    (run Explorer.apply Explorer.sample_state
         (actions (Explorer.handleExecuteQuery
                     (fun _ => "null") Explorer.sample_state
                     (Response true
                               (inr (Js.Obj [("columns", Js.Arr Explorer.two_columns)])))
                     0 5)))
  = inr (Explorer.ResultsView "0" "5ms"
           {| Explorer.header := ["id"; "email"]; Explorer.body := [] |}).
Proof.
  destruct (empty_result_is_a_table
              (fun _ => "null") Explorer.sample_state
              [("columns", Js.Arr Explorer.two_columns)] Explorer.two_columns
              ["id"; "email"] 0 5) as (_ & H & _).
  - discriminate.
  - discriminate.
  - reflexivity.
  - reflexivity.
  - reflexivity.
  - exact H.
Defined.

(* --------------------------------------------------------------------- *)
(** ** The port field *)
(* --------------------------------------------------------------------- *)








Example to_number_examples :
  Js.to_number 9007199254740993 = Js.Num 9007199254740992
  /\ Js.to_number 9007199254740995 = Js.Num 9007199254740996
  /\ Js.to_number (10 ^ 400) = Js.Inf false
  /\ Js.to_number (- 10 ^ 400) = Js.Inf true
  /\ Js.to_number (10 ^ 22) = Js.Num (10 ^ 22).
Proof. repeat split; vm_compute; reflexivity. Qed.





(* --------------------------------------------------------------------- *)

Lemma array_map_length {B} (expr : string) (l : list Js.value)
      (f : Js.value -> Js.result B) (ys : list B) :
  array_map expr (Js.Arr l) f = inr ys -> List.length ys = List.length l.
Proof.
  revert ys. induction l as [|x l IH]; intros ys; simpl.
  - now intros [= <-].
  - destruct (f x) as [e|y]; [discriminate|].
    destruct (fold_right _ _ l) as [e|ys'] eqn:E; [discriminate|].
    intros [= <-]. simpl. f_equal. now apply IH.
Qed.

(** What [loadDataSources] does after issuing its request: nothing, a log
    entry, or one replacement of the list. *)
Lemma loadDataSources_shape (net : FetchOutcome) :
  exists rest,
    DataSources.loadDataSources net
    = (Fetch (mkRequest "GET" DataSources.datasources_url None) :: rest, inr tt)
    /\ (rest = []
        \/ (exists e, rest = [ConsoleError "Failed to load data sources:" e])
        \/ (exists sources items,
               net = Response true (inr sources)
               /\ array_map "sources" sources DataSources.toItem = inr items
               /\ rest = [Update (DataSources.SetDataSources items)])).
Proof.
  unfold DataSources.loadDataSources.
  destruct net as [e|[|] [e|sources]]; cbn -[array_map].
  - eexists. split; [reflexivity|]. right. left. eauto.
  - eexists. split; [reflexivity|]. right. left. eauto.
  - destruct (array_map "sources" sources DataSources.toItem) as [e|items] eqn:E;
      cbn -[array_map].
    + eexists. split; [reflexivity|]. right. left. eauto.
    + eexists. split; [reflexivity|]. right. right. eauto.
  - eexists. split; [reflexivity|]. now left.
  - eexists. split; [reflexivity|]. now left.
Qed.

(** X8. [loadDataSources] never throws and raises no notification; it sends
    one GET and touches nothing but the list.  The list is replaced only
    when the response is a success whose body is an array without [null]
    elements, then by one entry per element; in every other case (network
    failure, error status, unparsable or non-array body) the list shown
    stays as it was. *)
Theorem load_replaces_list_or_keeps_it (net : FetchOutcome) (st : DataSources.State) :
  let h := DataSources.loadDataSources net in
  let st' := run DataSources.apply st (actions h) in
  snd h = inr tt
  /\ requests (actions h) = [mkRequest "GET" DataSources.datasources_url None]
  /\ error_toasts (actions h) = [] /\ success_toasts (actions h) = []
  /\ st' = DataSources.mkState (DataSources.searchQuery st) (DataSources.isDialogOpen st)
                               (DataSources.selectedType st) (DataSources.isConnecting st)
                               (DataSources.dataSources st') (DataSources.formData st)
  /\ (DataSources.dataSources st' = DataSources.dataSources st
      \/ exists l, net = Response true (inr (Js.Arr l))
                   /\ array_map "sources" (Js.Arr l) DataSources.toItem
                      = inr (DataSources.dataSources st')
                   /\ List.length (DataSources.dataSources st') = List.length l)
  /\ (forall l, net = Response true (inr (Js.Arr l)) ->
                Forall (fun s => s <> Js.Null /\ s <> Js.Undefined) l ->
                List.length (DataSources.dataSources st') = List.length l).
Proof.
  intros h st'.
  assert (Harr : forall l items,
             array_map "sources" (Js.Arr l) DataSources.toItem = inr items ->
             List.length items = List.length l)
    by (intros l items; apply array_map_length).
  assert (Hlast : forall l, net = Response true (inr (Js.Arr l)) ->
                            Forall (fun s => s <> Js.Null /\ s <> Js.Undefined) l ->
                            List.length (DataSources.dataSources st') = List.length l).
  { intros l -> Hl.
    assert (Hok : exists items,
               array_map "sources" (Js.Arr l) DataSources.toItem = inr items).
    { induction Hl as [|x l [Hx1 Hx2] Hl IH].
      - eexists; reflexivity.
      - destruct IH as (items & IH). simpl in IH |- *. rewrite IH.
        destruct x; try congruence; cbn; eexists; reflexivity. }
    destruct Hok as (items & Hok).
    subst st' h. unfold DataSources.loadDataSources. cbn -[array_map].
    rewrite Hok. cbn. now apply Harr. }
  destruct (loadDataSources_shape net) as (rest & E & Hrest). fold h in E.
  split; [now rewrite E|].
  destruct Hrest as [-> | [(e & ->) | (sources & items & Hnet & Hmap & ->)]].
  - subst st'. rewrite E in *. cbn in *. destruct st.
    repeat split; try now left. exact Hlast.
  - subst st'. rewrite E in *. cbn in *. destruct st.
    repeat split; try now left. exact Hlast.
  - subst st'. rewrite E in *. cbn in *. destruct st. repeat split.
    + right. subst net. destruct sources as [| | | | | |l|]; try discriminate Hmap.
      exists l. repeat split; [exact Hmap|]. now apply Harr.
    + exact Hlast.
Qed.

Lemma load_replaces_list_or_keeps_it_witness :
  List.length (DataSources.dataSources
                 (run DataSources.apply DataSources.postgres_state
                      (actions (DataSources.loadDataSources
                                  (Response true (inr DataSources.one_source))))))
  = 1%nat.
Proof.
  destruct (load_replaces_list_or_keeps_it
              (Response true (inr DataSources.one_source)) DataSources.postgres_state)
    as (_ & _ & _ & _ & _ & _ & H).
  apply (H _ eq_refl). repeat constructor; discriminate.
Defined.

(** X9. However incomplete an entry of the list is, as long as it is an
    object [loadDataSources] makes an item of it: a missing status is shown
    as "connected", and a source without synced schema, or whose schema has
    no table list, counts zero tables; with a table list the count is its
    length.  Only a [null] entry makes the conversion fail. *)
Theorem list_item_defaults (fs : list (string * Js.value)) :
  exists item,
    DataSources.toItem (Js.Obj fs) = inr item
    /\ DataSources.i_id item = Js.lookup "id" fs
    /\ DataSources.i_name item = Js.lookup "name" fs
    /\ Js.truthy (DataSources.i_status item) = true
    /\ (Js.truthy (Js.lookup "status" fs) = false ->
        DataSources.i_status item = Js.Str "connected")
    /\ (Js.lookup "schema_data" fs = Js.Undefined \/ Js.lookup "schema_data" fs = Js.Null ->
        DataSources.i_tables item = Js.Num 0)
    /\ (forall sd, Js.lookup "schema_data" fs = Js.Obj sd ->
                   Js.truthy (Js.lookup "tables" sd) = false ->
                   DataSources.i_tables item = Js.Num 0)
    /\ (forall sd ts, Js.lookup "schema_data" fs = Js.Obj sd ->
                      Js.lookup "tables" sd = Js.Arr ts ->
                      DataSources.i_tables item = Js.Num (Z.of_nat (List.length ts)))
    /\ (exists e, DataSources.toItem Js.Null = inl e).
Proof.
  eexists. split; [reflexivity|]. cbn [DataSources.i_id DataSources.i_name
    DataSources.i_status DataSources.i_tables Js.get_prop].
  split; [reflexivity|]. split; [reflexivity|]. split; [|split; [|split; [|split; [|split]]]].
  - unfold Js.or_else. destruct (Js.truthy (Js.lookup "status" fs)) eqn:E; [exact E|reflexivity].
  - intros H. unfold Js.or_else. now rewrite H.
  - intros [H|H]; rewrite H; reflexivity.
  - intros sd Hsd Ht. rewrite Hsd. cbn [Js.opt_prop Js.get_prop].
    destruct (Js.lookup "tables" sd) as [| |b|n|i|s|l|o]; try reflexivity;
      try discriminate Ht.
    apply empty_falsy in Ht. subst s. reflexivity.
  - intros sd ts Hsd Ht. rewrite Hsd. cbn [Js.opt_prop Js.get_prop]. rewrite Ht.
    cbn [Js.opt_prop Js.get_prop]. replace ("length" =? "length") with true by reflexivity.
    unfold Js.or_else. cbn [Js.truthy].
    destruct (Z.of_nat (List.length ts) =? 0)%Z eqn:E; [|reflexivity].
    apply Z.eqb_eq in E. cbn. now rewrite E.
  - eexists. reflexivity.
Qed.

(** X10. [handleConnect] with an empty connection name is rejected on the
    spot: the only effect is the notification asking for a name; no request
    is sent and the dialog is left as it is, whatever else was entered. *)
Theorem connect_without_name_is_rejected
        (st : DataSources.State) (created reloaded : FetchOutcome) :
  DataSources.f_name (DataSources.formData st) = "" ->
  let h := DataSources.handleConnect st created reloaded in
  h = ([ToastError (Js.Str "Please enter a connection name")], inr tt)
  /\ requests (actions h) = []
  /\ run DataSources.apply st (actions h) = st.
Proof.
  intros Hn h. subst h. unfold DataSources.handleConnect. rewrite Hn. repeat split.
Qed.

Lemma connect_without_name_is_rejected_witness :
  requests (actions (DataSources.handleConnect
                       DataSources.initial (Response true (inr (Js.Obj [])))
                       (Response true (inr (Js.Arr []))))) = [].
Proof.
  apply (connect_without_name_is_rejected
           DataSources.initial (Response true (inr (Js.Obj [])))
           (Response true (inr (Js.Arr [])))).
  reflexivity.
Defined.

(** X11. When creating a data source fails (the request is rejected, or
    the backend answers with an error status, whatever its body),
    [handleConnect] sends only the creation request and no list refresh,
    raises one error notification and no success notification, and leaves
    the dialog open with everything the user entered: only the connecting
    flag changes, and it ends cleared.  A non-empty string [detail] of the
    error body is the text of the notification. *)
Theorem failed_connect_keeps_form
        (st : DataSources.State) (created reloaded : FetchOutcome) :
  DataSources.f_name (DataSources.formData st) <> "" ->
  (forall json, created <> Response true json) ->
  let h := DataSources.handleConnect st created reloaded in
  let st' := run DataSources.apply st (actions h) in
  snd h = inr tt
  /\ requests (actions h) = [DataSources.create_request st]
  /\ st' = DataSources.apply (DataSources.SetIsConnecting false) st
  /\ DataSources.formData st' = DataSources.formData st
  /\ DataSources.isDialogOpen st' = DataSources.isDialogOpen st
  /\ (exists m, error_toasts (actions h) = [Js.Str m])
  /\ success_toasts (actions h) = []
  /\ (forall fs s, created = Response false (inr (Js.Obj fs)) ->
                   Js.lookup "detail" fs = Js.Str s -> s <> "" ->
                   error_toasts (actions h) = [Js.Str s])
  /\ (forall fs, created = Response false (inr (Js.Obj fs)) ->
                 Js.truthy (Js.lookup "detail" fs) = false ->
                 error_toasts (actions h) = [Js.Str "Failed to connect to data source"]).
Proof.
  intros Hn Hfail h st'. subst st' h. unfold DataSources.handleConnect.
  rewrite (nonempty_truthy _ Hn).
  destruct created as [e|[|] json]; [| exfalso; now apply (Hfail json) |].
  - cbn -[DataSources.create_request]. destruct st.
    repeat split; eauto; intros; discriminate.
  - destruct json as [e|error].
    + cbn -[DataSources.create_request]. destruct st.
      repeat split; eauto; intros; discriminate.
    + destruct (Js.get_prop error "detail") as [e|detail] eqn:Ed.
      * cbn -[DataSources.create_request]. rewrite Ed. cbn -[DataSources.create_request].
        destruct st. repeat split; eauto.
        -- intros fs s [= ->]. discriminate Ed.
        -- intros fs [= ->]. discriminate Ed.
      * cbn -[DataSources.create_request]. rewrite Ed. cbn -[DataSources.create_request].
        destruct st. repeat split; eauto.
        -- intros fs s [= ->] Hd Hs. cbn in Ed. injection Ed as <-. rewrite Hd.
           unfold Js.or_else. rewrite (nonempty_truthy s Hs). reflexivity.
        -- intros fs [= ->] Hd. cbn in Ed. injection Ed as <-.
           unfold Js.or_else. rewrite Hd. reflexivity.
Qed.

Lemma failed_connect_keeps_form_witness :
  let h := DataSources.handleConnect
             DataSources.postgres_state
             (Response false (inr (Js.Obj [("detail", Js.Str "connection refused")])))
             (Response true (inr (Js.Arr []))) in
  DataSources.formData (run DataSources.apply DataSources.postgres_state (actions h))
  = DataSources.mkForm "Prod" "db.local" "5432" "app" "u" "p" "" ""
  /\ error_toasts (actions h) = [Js.Str "connection refused"].
Proof.
  intros h.
  destruct (failed_connect_keeps_form
              DataSources.postgres_state
              (Response false (inr (Js.Obj [("detail", Js.Str "connection refused")])))
              (Response true (inr (Js.Arr []))))
    as (_ & _ & _ & Hf & _ & _ & _ & Hd & _).
  - discriminate.
  - intros json. discriminate.
  - split; [exact Hf|]. apply (Hd _ _ eq_refl eq_refl). discriminate.
Defined.

(** X12. When the backend accepts the new data source, [handleConnect]
    sends the creation request and then the list refresh, reports success,
    closes the dialog and resets the form and the selected type; the body
    of the creation response is not looked at.  This holds whatever the
    refresh answers: if the refresh fails the list simply stays as it was
    and success is reported all the same. *)
Theorem successful_connect_resets_dialog
        (st : DataSources.State) (json : Js.result Js.value) (reloaded : FetchOutcome) :
  DataSources.f_name (DataSources.formData st) <> "" ->
  let h := DataSources.handleConnect st (Response true json) reloaded in
  let st' := run DataSources.apply st (actions h) in
  snd h = inr tt
  /\ requests (actions h)
     = [DataSources.create_request st; mkRequest "GET" DataSources.datasources_url None]
  /\ success_toasts (actions h) = ["Data source connected successfully!"]
  /\ error_toasts (actions h) = []
  /\ st' = DataSources.mkState
             (DataSources.searchQuery st) false "" false
             (DataSources.dataSources
                (run DataSources.apply st (actions (DataSources.loadDataSources reloaded))))
             DataSources.emptyForm.
Proof.
  intros Hn h st'. subst st' h. unfold DataSources.handleConnect.
  rewrite (nonempty_truthy _ Hn).
  destruct (loadDataSources_shape reloaded) as (rest & E & Hrest).
  cbn -[DataSources.loadDataSources DataSources.create_request].
  rewrite E.
  destruct Hrest as [-> | [(e & ->) | (sources & items & _ & _ & ->)]];
    cbn -[DataSources.create_request]; destruct st; repeat split.
Qed.

Lemma successful_connect_resets_dialog_witness :
  let h := DataSources.handleConnect
             DataSources.postgres_state (Response true (inl (Js.ErrorExn "no body")))
             (NetworkFailure (Js.ErrorExn "Failed to fetch")) in
  DataSources.formData (run DataSources.apply DataSources.postgres_state (actions h))
  = DataSources.emptyForm
  /\ success_toasts (actions h) = ["Data source connected successfully!"].
Proof.
  intros h.
  destruct (successful_connect_resets_dialog
              DataSources.postgres_state (inl (Js.ErrorExn "no body"))
              (NetworkFailure (Js.ErrorExn "Failed to fetch")))
    as (_ & _ & Hs & _ & Hst).
  - discriminate.
  - split; [|exact Hs]. fold h in Hst. rewrite Hst. reflexivity.
Defined.

(** X13. Typing into a field of the dialog stores exactly that text in
    exactly that field: the field reads back the new value, every other
    field reads as before, and nothing else on the page changes. *)
Theorem input_change_sets_one_field
        (st : DataSources.State) (field : DataSources.FormKey) (value : string) :
  let st' := run DataSources.apply st
                 (actions (DataSources.handleInputChange field value)) in
  DataSources.get_field field (DataSources.formData st') = value
  /\ (forall other, other <> field ->
                    DataSources.get_field other (DataSources.formData st')
                    = DataSources.get_field other (DataSources.formData st))
  /\ st' = DataSources.mkState (DataSources.searchQuery st) (DataSources.isDialogOpen st)
                               (DataSources.selectedType st) (DataSources.isConnecting st)
                               (DataSources.dataSources st) (DataSources.formData st')
  /\ requests (actions (DataSources.handleInputChange field value)) = [].
Proof.
  intros st'. subst st'. cbn. repeat split.
  - destruct field; reflexivity.
  - intros other Hne. destruct field, other; try reflexivity; congruence.
Qed.

(** X14. The port field and the type buttons interact: a port typed
    before a type is chosen is overwritten by that type's default port
    (also by an empty default), while a port typed after the type was chosen
    replaces the default; in both orders the connection name typed earlier
    survives. *)
Theorem type_select_overwrites_typed_port
        (st : DataSources.State) (ty : DataSources.DataSourceType) (typed : string) :
  In ty DataSources.dataSourceTypes ->
  let type_then_select :=
    run DataSources.apply
        (run DataSources.apply st
             (actions (DataSources.handleInputChange DataSources.Kport typed)))
        (actions (DataSources.handleTypeSelect (DataSources.id ty))) in
  let select_then_type :=
    run DataSources.apply
        (run DataSources.apply st
             (actions (DataSources.handleTypeSelect (DataSources.id ty))))
        (actions (DataSources.handleInputChange DataSources.Kport typed)) in
  DataSources.f_port (DataSources.formData type_then_select) = DataSources.defaultPort ty
  /\ DataSources.f_port (DataSources.formData select_then_type) = typed
  /\ DataSources.f_name (DataSources.formData type_then_select)
     = DataSources.f_name (DataSources.formData st)
  /\ DataSources.f_name (DataSources.formData select_then_type)
     = DataSources.f_name (DataSources.formData st)
  /\ DataSources.selectedType type_then_select = DataSources.id ty
  /\ DataSources.selectedType select_then_type = DataSources.id ty.
Proof.
  intros Hin. simpl in Hin.
  repeat (destruct Hin as [<-|Hin]; [cbn; repeat split|]).
  destruct Hin.
Qed.

Lemma type_select_overwrites_typed_port_witness :
  DataSources.f_port
    (DataSources.formData
       (run DataSources.apply
            (run DataSources.apply DataSources.postgres_state
                 (actions (DataSources.handleInputChange DataSources.Kport "6543")))
            (actions (DataSources.handleTypeSelect "sqlite")))) = "".
Proof.
  destruct (type_select_overwrites_typed_port
              DataSources.postgres_state (DataSources.mkType "sqlite" "SQLite" "") "6543")
    as (H & _).
  - simpl. tauto.
  - exact H.
Defined.

(** X15. Deleting a data source sends a DELETE to the URL that ends in
    the source's id.  When the DELETE fails or is answered with an error
    status, nothing else is sent, the list shown is untouched and one error
    notification is raised (the fixed text for an error status).  When it
    succeeds the list is refreshed and "<name> has been deleted" is
    reported, whether or not the refresh itself succeeds.  In no case does
    the handler throw. *)
Theorem delete_refreshes_only_on_success
        (st : DataSources.State) (id name : Js.value) (deleted reloaded : FetchOutcome) :
  let h := DataSources.handleDelete id name deleted reloaded in
  let st' := run DataSources.apply st (actions h) in
  let delete_request :=
    mkRequest "DELETE" ("http://localhost:8000/api/v1/datasources/" ++ Js.toString id)
              None in
  snd h = inr tt
  /\ hd_error (requests (actions h)) = Some delete_request
  /\ ((forall json, deleted <> Response true json) ->
      requests (actions h) = [delete_request]
      /\ st' = st
      /\ success_toasts (actions h) = []
      /\ (exists m, error_toasts (actions h) = [Js.Str m])
      /\ (forall json, deleted = Response false json ->
                       error_toasts (actions h) = [Js.Str "Failed to delete data source"]))
  /\ (forall json, deleted = Response true json ->
                   requests (actions h)
                   = [delete_request; mkRequest "GET" DataSources.datasources_url None]
                   /\ success_toasts (actions h) = [Js.toString name ++ " has been deleted"]
                   /\ error_toasts (actions h) = []
                   /\ st' = run DataSources.apply st
                                (actions (DataSources.loadDataSources reloaded))).
Proof.
  intros h st' delete_request. subst h st' delete_request.
  unfold DataSources.handleDelete.
  destruct deleted as [e|[|] json].
  - cbn. repeat split; eauto; intros; discriminate.
  - destruct (loadDataSources_shape reloaded) as (rest & E & Hrest).
    cbn -[DataSources.loadDataSources]. rewrite E.
    destruct Hrest as [-> | [(e & ->) | (sources & items & _ & _ & ->)]]; cbn;
      (split; [reflexivity|]); (split; [reflexivity|]);
      (split; [intros H; exfalso; now apply (H json)|]);
      intros json' _; repeat split.
  - cbn. repeat split; eauto; intros; discriminate.
Qed.

Lemma delete_refreshes_only_on_success_witness :
  requests (actions (DataSources.handleDelete
                       (Js.Str "ds-1") (Js.Str "Prod")
                       (Response false (inr (Js.Obj [])))
                       (Response true (inr (Js.Arr [])))))
  = [mkRequest "DELETE" "http://localhost:8000/api/v1/datasources/ds-1" None].
Proof.
  destruct (delete_refreshes_only_on_success
              DataSources.initial (Js.Str "ds-1") (Js.Str "Prod")
              (Response false (inr (Js.Obj []))) (Response true (inr (Js.Arr []))))
    as (_ & _ & H & _).
  destruct H as (H & _); [intros json; discriminate | exact H].
Defined.

(* --------------------------------------------------------------------- *)
(** ** Searching the data sources *)
(* --------------------------------------------------------------------- *)

Lemma includes_cons (c : ascii) (s sub : string) :
  Js.includes (String c s) sub
  = if String.prefix sub (String c s) then true else Js.includes s sub.
Proof. reflexivity. Qed.

Lemma includes_nil (sub : string) :
  Js.includes "" sub = if String.prefix sub "" then true else false.
Proof. reflexivity. Qed.

Lemma includes_empty (s : string) : Js.includes s "" = true.
Proof.
  destruct s; reflexivity.
Qed.

Lemma prefix_refl (s : string) : String.prefix s s = true.
Proof.
  induction s as [|c s IH]; [reflexivity|].
  simpl. destruct (ascii_dec c c); [exact IH | congruence].
Qed.

Lemma includes_refl (s : string) : Js.includes s s = true.
Proof.
  destruct s as [|c s]; [reflexivity|].
  rewrite includes_cons, prefix_refl. reflexivity.
Qed.

(** X16. The search box over the data sources, for whatever case mapping
    [toLowerCase] is.  When every source has a string name, the cards shown
    are the sources whose lower-cased name contains the lower-cased search
    text, in their original order and with their repetitions: the list is
    the sources filtered by that test.  So a source whose name and the
    search text lower-case to the same string is shown, and every source is
    shown when the search text lower-cases to the empty string.  A single
    source whose name is not a string makes the whole grid fail to render. *)
Theorem search_shows_matching_sources
        (toLowerCase : string -> string)
        (searchQuery : string) (l : list DataSources.DataSourceItem) :
  (Forall (fun src => exists n, DataSources.i_name src = Js.Str n) l ->
   exists shown,
     DataSources.filter_sources toLowerCase searchQuery l = inr shown
     /\ shown = filter (fun src => match DataSources.i_name src with
                                   | Js.Str n => Js.includes (toLowerCase n)
                                                             (toLowerCase searchQuery)
                                   | _ => false
                                   end) l
     /\ (forall src, In src shown <->
                     In src l
                     /\ exists n, DataSources.i_name src = Js.Str n
                                  /\ Js.includes (toLowerCase n)
                                                 (toLowerCase searchQuery) = true)
     /\ (forall src n, In src l -> DataSources.i_name src = Js.Str n ->
                       toLowerCase n = toLowerCase searchQuery -> In src shown)
     /\ (toLowerCase searchQuery = "" -> shown = l)
     /\ (List.length shown <= List.length l)%nat)
  /\ (forall src, In src l ->
                  (forall n, DataSources.i_name src <> Js.Str n) ->
                  exists e, DataSources.filter_sources toLowerCase searchQuery l = inl e).
Proof.
  split.
  - intros Hall.
    set (test := fun src => match DataSources.i_name src with
                            | Js.Str n => Js.includes (toLowerCase n) (toLowerCase searchQuery)
                            | _ => false
                            end).
    assert (E : DataSources.filter_sources toLowerCase searchQuery l = inr (filter test l)).
    { induction Hall as [|src l (n & Hn) Hall IH]; [reflexivity|].
      cbn [DataSources.filter_sources filter]. rewrite IH.
      unfold DataSources.matches_search, test. rewrite Hn.
      cbn [DataSources.call_toLowerCase]. reflexivity. }
    assert (Hiff : forall src, In src (filter test l) <->
                     In src l
                     /\ exists n, DataSources.i_name src = Js.Str n
                                  /\ Js.includes (toLowerCase n)
                                                 (toLowerCase searchQuery) = true).
    { intros src. rewrite filter_In. split.
      - intros (Hin & Ht). split; [exact Hin|]. unfold test in Ht.
        destruct (DataSources.i_name src) as [| |b|k|i|n|a|o]; try discriminate Ht.
        exists n. split; [reflexivity | exact Ht].
      - intros (Hin & n & Hn & Hc). split; [exact Hin|]. unfold test. now rewrite Hn. }
    exists (filter test l). split; [exact E|]. split; [reflexivity|].
    split; [exact Hiff|]. split; [|split].
    + intros src n Hin Hn Heq. apply Hiff. split; [exact Hin|].
      exists n. split; [exact Hn|]. rewrite Heq. apply includes_refl.
    + intros Hq. clear E Hiff.
      induction Hall as [|src l (n & Hn) Hall IH]; [reflexivity|].
      cbn [filter]. unfold test at 1. rewrite Hn, Hq, includes_empty. now rewrite IH.
    + apply filter_length_le.
  - intros src Hin Hbad. induction l as [|x l IH]; [destruct Hin|].
    cbn [DataSources.filter_sources]. destruct Hin as [-> | Hin].
    + unfold DataSources.matches_search.
      destruct (DataSources.i_name src) as [| |b|k|i|n|a|o] eqn:En;
        cbn [DataSources.call_toLowerCase]; eauto.
      exfalso. now apply (Hbad n).
    + destruct (DataSources.matches_search toLowerCase searchQuery x) as [e|keep]; [eauto|].
      destruct (IH Hin) as (e & ->). eauto.
Qed.

Lemma search_shows_matching_sources_witness :
  DataSources.filter_sources
    (fun s => s) "pro"
    [DataSources.mkItem (Js.Str "ds-1") (Js.Str "prod") (Js.Str "postgresql")
                        (Js.Str "connected") (Js.Num 0) Js.Undefined;
     DataSources.mkItem (Js.Str "ds-2") (Js.Str "files") (Js.Str "csv")
                        (Js.Str "connected") (Js.Num 0) Js.Undefined]
  = inr [DataSources.mkItem (Js.Str "ds-1") (Js.Str "prod") (Js.Str "postgresql")
                            (Js.Str "connected") (Js.Num 0) Js.Undefined].
Proof.
  destruct (search_shows_matching_sources
              (fun s => s) "pro"
              [DataSources.mkItem (Js.Str "ds-1") (Js.Str "prod") (Js.Str "postgresql")
                                  (Js.Str "connected") (Js.Num 0) Js.Undefined;
               DataSources.mkItem (Js.Str "ds-2") (Js.Str "files") (Js.Str "csv")
                                  (Js.Str "connected") (Js.Num 0) Js.Undefined])
    as (H & _).
  destruct H as (shown & E & Hs & _).
  - repeat constructor; eexists; reflexivity.
  - rewrite E, Hs. reflexivity.
Defined.

(* --------------------------------------------------------------------- *)
(** ** The stores: invariants and round trips *)
(* --------------------------------------------------------------------- *)

Lemma dispatch_keeps_selection_valid (a : Store.StoreAction) (state : Store.DataSourceState) :
  Store.selection_valid state -> Store.selection_valid (Store.dispatch a state).
Proof.
  unfold Store.selection_valid. destruct state as [l sel c e].
  destruct a as [ds | i | i | i u | b | err]; cbn.
  - destruct sel as [s|]; [|trivial]. intros H. apply in_or_app. now left.
  - destruct sel as [s|]; [|trivial]. cbn.
    destruct (Store.id s =? i) eqn:E; [trivial|].
    intros H. apply filter_In. split; [exact H|]. now rewrite E.
  - intros _. destruct i as [i|]; [|trivial].
    destruct (negb (i =? "")); [|trivial].
    destruct (find (fun ds => Store.id ds =? i) l) as [ds|] eqn:E; [|trivial].
    apply find_some in E as [Hin _]. exact Hin.
  - destruct sel as [s|]; [|trivial].
    intros H.
    pose proof (in_map (fun ds => if Store.id ds =? i then Store.merge ds u else ds)
                       l s H) as Hf.
    cbn in Hf. destruct (Store.id s =? i); exact Hf.
  - trivial.
  - trivial.
Qed.

(** X17. In the data-source store the selection never dangles: starting
    from the initial store, or from any store whose selection is an entry
    of its list, every sequence of store actions (add, remove, select,
    update, setConnecting, setError) leads to a store whose selection is
    [null] or an entry of its list. *)
Theorem store_selection_never_dangles
        (actions : list Store.StoreAction) (state : Store.DataSourceState) :
  Store.selection_valid state ->
  Store.selection_valid (Store.dispatch_all actions state)
  /\ Store.selection_valid (Store.dispatch_all actions Store.initial).
Proof.
  intros H.
  assert (G : forall s, Store.selection_valid s ->
                        Store.selection_valid (Store.dispatch_all actions s)).
  { unfold Store.dispatch_all. induction actions as [|a l IH]; intros s Hs; [exact Hs|].
    simpl. apply IH. now apply dispatch_keeps_selection_valid. }
  split; [now apply G | apply G; exact I].
Qed.

Lemma store_selection_never_dangles_witness :
  Store.selection_valid
    (Store.dispatch_all
       [Store.UpdateDataSource "ds-1" Store.no_updates; Store.RemoveDataSource "ds-2"]
       Store.two_sources).
Proof.
  apply (store_selection_never_dangles
           [Store.UpdateDataSource "ds-1" Store.no_updates; Store.RemoveDataSource "ds-2"]
           Store.two_sources).
  simpl. now left.
Defined.

(** X18. [selectDataSource] leaves the list alone and selects the first
    entry with the requested id; the selection becomes [null] when the
    argument is [null] or the empty string or when no entry has that id.
    In particular a source that has just been removed cannot be selected. *)
Theorem select_finds_first_match (i : option string) (state : Store.DataSourceState) :
  let s' := Store.selectDataSource i state in
  Store.dataSources s' = Store.dataSources state
  /\ (forall ds, Store.selectedDataSource s' = Some ds ->
                 In ds (Store.dataSources state) /\ i = Some (Store.id ds)
                 /\ Store.id ds <> "")
  /\ (Store.selectedDataSource s' = None <->
      i = None \/ i = Some ""
      \/ exists k, i = Some k /\ forall ds, In ds (Store.dataSources state) ->
                                             Store.id ds <> k)
  /\ (forall k, Store.selectedDataSource
                  (Store.selectDataSource (Some k) (Store.removeDataSource k state))
                = None).
Proof.
  intros s'. subst s'. destruct state as [l sel c e].
  unfold Store.selectDataSource, Store.removeDataSource.
  cbn [Store.dataSources Store.selectedDataSource].
  split; [reflexivity|]. split; [|split].
  - intros ds. destruct i as [k|]; [|discriminate].
    destruct (Js.truthy (Js.Str k)) eqn:Et; [|discriminate].
    intros H. apply find_some in H as [Hin Hid]. apply String.eqb_eq in Hid. subst k.
    repeat split; try assumption.
    intros E. rewrite E in Et. discriminate.
  - split.
    + destruct i as [k|]; [|now left].
      destruct (Js.truthy (Js.Str k)) eqn:Et.
      * intros H. right. right. exists k. split; [reflexivity|].
        intros ds Hin Hid. apply (find_none _ _ H) in Hin.
        apply String.eqb_neq in Hin. contradiction.
      * intros _. right. left. f_equal. now apply empty_falsy.
    + intros [-> | [-> | (k & -> & Hno)]]; [reflexivity | reflexivity |].
      destruct (Js.truthy (Js.Str k)); [|reflexivity].
      destruct (find (fun ds => Store.id ds =? k) l) as [ds|] eqn:E; [|reflexivity].
      apply find_some in E as [Hin Hid]. apply String.eqb_eq in Hid.
      exfalso. now apply (Hno ds).
  - intros k. destruct (Js.truthy (Js.Str k)); [|reflexivity].
    destruct (find (fun ds => Store.id ds =? k)
                   (filter (fun ds => negb (Store.id ds =? k)) l)) as [ds|] eqn:E;
      [|reflexivity].
    apply find_some in E as [Hin Hid]. apply filter_In in Hin as [_ Hne].
    rewrite Hid in Hne. discriminate.
Qed.

(** X19. Adding a source and removing it again restores the store, provided
    its id was not in use and the selection was an entry of the list; and
    removing the same id twice is the same as removing it once. *)
Theorem add_then_remove_restores
        (ds : Store.DataSource) (state : Store.DataSourceState) :
  (forall x, In x (Store.dataSources state) -> Store.id x <> Store.id ds) ->
  Store.selection_valid state ->
  Store.removeDataSource (Store.id ds) (Store.addDataSource ds state) = state
  /\ (forall i s, Store.removeDataSource i (Store.removeDataSource i s)
                  = Store.removeDataSource i s).
Proof.
  intros Hfresh Hsel. split.
  - destruct state as [l sel c e]. unfold Store.removeDataSource, Store.addDataSource.
    cbn in *. f_equal.
    + rewrite filter_app. cbn. rewrite String.eqb_refl. cbn. rewrite app_nil_r.
      apply forallb_filter_id. apply forallb_forall. intros x Hx.
      apply negb_true_iff, String.eqb_neq. now apply Hfresh.
    + unfold Store.selection_valid in Hsel. cbn in Hsel.
      destruct sel as [s|]; [|reflexivity]. cbn.
      apply Hfresh in Hsel. apply String.eqb_neq in Hsel. now rewrite Hsel.
  - intros i [l sel c e]. unfold Store.removeDataSource. cbn. f_equal.
    + induction l as [|x l IH]; [reflexivity|]. cbn.
      destruct (Store.id x =? i) eqn:E; cbn; [exact IH|]. rewrite E. cbn. now rewrite IH.
    + destruct sel as [s|]; [|reflexivity]. cbn.
      destruct (Store.id s =? i) eqn:E; cbn; [reflexivity | now rewrite E].
Qed.

Lemma add_then_remove_restores_witness :
  Store.removeDataSource "ds-2" (Store.addDataSource Store.files
                                   (Store.mkStore [Store.prod] (Some Store.prod) false None))
  = Store.mkStore [Store.prod] (Some Store.prod) false None.
Proof.
  apply (add_then_remove_restores
           Store.files (Store.mkStore [Store.prod] (Some Store.prod) false None)).
  - intros x [<- | []]. discriminate.
  - simpl. now left.
Defined.

Lemma merge_no_updates (ds : Store.DataSource) : Store.merge ds Store.no_updates = ds.
Proof. destruct ds; reflexivity. Qed.

(** X20. [updateDataSource] keeps the list as long as it was and leaves
    every entry with another id where it was and as it was.  In an entry
    with the given id, every field the update carries takes the value of
    the update and every other field keeps its value, field by field for
    the nine fields of a data source; so an update that carries no field
    changes nothing at all, and an update that does not carry an id keeps
    the ids of all entries, in order.  The selected source is treated the
    same way: untouched with another id, updated field by field with the
    given id, and still none when there was none.  The connecting flag and
    the error are kept. *)
Theorem update_touches_only_matching_entries
        (i : string) (updates : Store.DataSourceUpdates) (state : Store.DataSourceState) :
  let s' := Store.updateDataSource i updates state in
  List.length (Store.dataSources s') = List.length (Store.dataSources state)
  /\ (forall n ds, nth_error (Store.dataSources state) n = Some ds ->
                   exists ds',
                     nth_error (Store.dataSources s') n = Some ds'
                     /\ (Store.id ds <> i -> ds' = ds)
                     /\ (Store.id ds = i ->
                         Store.id ds' = match Store.u_id updates with Some v => v | None => Store.id ds end
                         /\ Store.name ds' = match Store.u_name updates with Some v => v | None => Store.name ds end
                         /\ Store.type ds' = match Store.u_type updates with Some v => v | None => Store.type ds end
                         /\ Store.config ds' = match Store.u_config updates with Some v => v | None => Store.config ds end
                         /\ Store.status ds' = match Store.u_status updates with Some v => v | None => Store.status ds end
                         /\ Store.lastConnected ds' = match Store.u_lastConnected updates with Some v => v | None => Store.lastConnected ds end
                         /\ Store.schema ds' = match Store.u_schema updates with Some v => v | None => Store.schema ds end
                         /\ Store.createdAt ds' = match Store.u_createdAt updates with Some v => v | None => Store.createdAt ds end
                         /\ Store.updatedAt ds' = match Store.u_updatedAt updates with Some v => v | None => Store.updatedAt ds end))
  /\ (forall n ds, nth_error (Store.dataSources state) n = Some ds ->
                   nth_error (Store.dataSources s') n
                   = Some (if Store.id ds =? i then Store.merge ds updates else ds))
  /\ (Store.u_id updates = None ->
      map Store.id (Store.dataSources s') = map Store.id (Store.dataSources state))
  /\ Store.updateDataSource i Store.no_updates state = state
  /\ (Store.selectedDataSource state = None -> Store.selectedDataSource s' = None)
  /\ (forall sel, Store.selectedDataSource state = Some sel ->
                  exists sel',
                    Store.selectedDataSource s' = Some sel'
                    /\ (Store.id sel <> i -> sel' = sel)
                    /\ (Store.id sel = i ->
                        Store.id sel' = match Store.u_id updates with Some v => v | None => Store.id sel end
                        /\ Store.name sel' = match Store.u_name updates with Some v => v | None => Store.name sel end
                        /\ Store.type sel' = match Store.u_type updates with Some v => v | None => Store.type sel end
                        /\ Store.config sel' = match Store.u_config updates with Some v => v | None => Store.config sel end
                        /\ Store.status sel' = match Store.u_status updates with Some v => v | None => Store.status sel end
                        /\ Store.lastConnected sel' = match Store.u_lastConnected updates with Some v => v | None => Store.lastConnected sel end
                        /\ Store.schema sel' = match Store.u_schema updates with Some v => v | None => Store.schema sel end
                        /\ Store.createdAt sel' = match Store.u_createdAt updates with Some v => v | None => Store.createdAt sel end
                        /\ Store.updatedAt sel' = match Store.u_updatedAt updates with Some v => v | None => Store.updatedAt sel end))
  /\ (forall sel, Store.selectedDataSource state = Some sel ->
                  Store.selectedDataSource s'
                  = Some (if Store.id sel =? i then Store.merge sel updates else sel))
  /\ Store.isConnecting s' = Store.isConnecting state
  /\ Store.error s' = Store.error state.
Proof.
  intros s'. subst s'. destruct state as [l sel c e]. cbn.
  assert (Hfields : forall ds, Store.id ds = i ->
            exists ds',
              (if Store.id ds =? i then Store.merge ds updates else ds) = ds'
              /\ Store.id ds' = match Store.u_id updates with Some v => v | None => Store.id ds end
              /\ Store.name ds' = match Store.u_name updates with Some v => v | None => Store.name ds end
              /\ Store.type ds' = match Store.u_type updates with Some v => v | None => Store.type ds end
              /\ Store.config ds' = match Store.u_config updates with Some v => v | None => Store.config ds end
              /\ Store.status ds' = match Store.u_status updates with Some v => v | None => Store.status ds end
              /\ Store.lastConnected ds' = match Store.u_lastConnected updates with Some v => v | None => Store.lastConnected ds end
              /\ Store.schema ds' = match Store.u_schema updates with Some v => v | None => Store.schema ds end
              /\ Store.createdAt ds' = match Store.u_createdAt updates with Some v => v | None => Store.createdAt ds end
              /\ Store.updatedAt ds' = match Store.u_updatedAt updates with Some v => v | None => Store.updatedAt ds end).
  { intros ds Hid. apply String.eqb_eq in Hid. rewrite Hid.
    exists (Store.merge ds updates). split; [reflexivity|].
    unfold Store.merge, Store.or_keep. cbn. repeat split. }
  assert (Hother : forall ds, Store.id ds <> i ->
            (if Store.id ds =? i then Store.merge ds updates else ds) = ds).
  { intros ds Hid. apply String.eqb_neq in Hid. now rewrite Hid. }
  split; [apply length_map|].
  split; [|split; [|split; [|split; [|split; [|split; [|split]]]]]].
  - intros n ds H.
    pose proof (map_nth_error
                  (fun ds => if Store.id ds =? i then Store.merge ds updates else ds)
                  n l H) as Hn.
    eexists. split; [exact Hn|]. split.
    + intros Hid. now apply Hother.
    + intros Hid. destruct (Hfields ds Hid) as (ds' & -> & Hds'). exact Hds'.
  - intros n ds H.
    exact (map_nth_error (fun ds => if Store.id ds =? i then Store.merge ds updates else ds)
                         n l H).
  - intros Hid. rewrite map_map. apply map_ext. intros ds.
    destruct (Store.id ds =? i); [|reflexivity].
    unfold Store.merge. cbn. now rewrite Hid.
  - unfold Store.updateDataSource. cbn. f_equal.
    + rewrite <- (map_id l) at 2. apply map_ext. intros ds.
      rewrite merge_no_updates. now destruct (Store.id ds =? i).
    + destruct sel as [s|]; [|reflexivity]. rewrite merge_no_updates.
      now destruct (Store.id s =? i).
  - intros ->. reflexivity.
  - intros s ->.
    exists (if Store.id s =? i then Store.merge s updates else s).
    split; [now destruct (Store.id s =? i)|]. split.
    + intros Hid. now apply Hother.
    + intros Hid. destruct (Hfields s Hid) as (ds' & -> & Hds'). exact Hds'.
  - intros s ->. now destruct (Store.id s =? i).
  - split; reflexivity.
Qed.

(** X21. The chat transcript of the store is append-only under
    [addMessage]: adding messages one after the other leaves the earlier
    messages where they were and puts the new ones after them in the order
    they were added, without touching the loading flag or the conversation
    id; [clearMessages] then empties the transcript and nothing else. *)
Theorem chat_transcript_is_append_only
        (added : list ChatStore.ChatMessage) (state : ChatStore.ChatState) :
  let s' := fold_left (fun s m => ChatStore.addMessage m s) added state in
  ChatStore.messages s' = (ChatStore.messages state ++ added)%list
  /\ firstn (List.length (ChatStore.messages state)) (ChatStore.messages s')
     = ChatStore.messages state
  /\ ChatStore.isLoading s' = ChatStore.isLoading state
  /\ ChatStore.currentConversationId s' = ChatStore.currentConversationId state
  /\ ChatStore.clearMessages s'
     = ChatStore.mkChat [] (ChatStore.isLoading state)
                        (ChatStore.currentConversationId state).
Proof.
  intros s'.
  assert (E : s' = ChatStore.mkChat (ChatStore.messages state ++ added)%list
                                    (ChatStore.isLoading state)
                                    (ChatStore.currentConversationId state)).
  { subst s'. revert state. induction added as [|m l IH]; intros state; simpl.
    - rewrite app_nil_r. now destruct state.
    - rewrite IH. cbn. now rewrite <- app_assoc. }
  rewrite E. cbn. repeat split.
  rewrite firstn_app, Nat.sub_diag, firstn_all. cbn. apply app_nil_r.
Qed.

(** X22. In the insight store, removing an id right after adding an
    insight: when the new insight has that id and no earlier one does, the
    store is back to what it was; when the new insight has another id, the
    removal acts on the earlier insights only and the new one stays last. *)
Theorem insight_add_then_remove
        (x : InsightStore.Insight) (i : string) (state : InsightStore.InsightState) :
  (InsightStore.id x = i ->
   (forall y, In y (InsightStore.insights state) -> InsightStore.id y <> i) ->
   InsightStore.removeInsight i (InsightStore.addInsight x state) = state)
  /\ (InsightStore.id x <> i ->
      InsightStore.removeInsight i (InsightStore.addInsight x state)
      = InsightStore.addInsight x (InsightStore.removeInsight i state))
  /\ (forall y, In y (InsightStore.insights
                        (InsightStore.removeInsight i (InsightStore.addInsight x state))) ->
                InsightStore.id y <> i).
Proof.
  destruct state as [l g]. unfold InsightStore.removeInsight, InsightStore.addInsight.
  cbn. split; [|split].
  - intros Hid Hfresh. f_equal. rewrite filter_app. cbn. rewrite Hid, String.eqb_refl.
    cbn. rewrite app_nil_r. apply forallb_filter_id. apply forallb_forall.
    intros y Hy. apply negb_true_iff, String.eqb_neq. now apply Hfresh.
  - intros Hne. f_equal. rewrite filter_app. cbn.
    apply String.eqb_neq in Hne. now rewrite Hne.
  - intros y Hy. apply filter_In in Hy as [_ Hy].
    now apply negb_true_iff, String.eqb_neq in Hy.
Qed.

Lemma insight_add_then_remove_witness :
  let x := InsightStore.Build_Insight "i-1" "ds-1" "Growth" "Revenue is growing"
                                      InsightStore.trend Js.Null 0 in
  InsightStore.removeInsight "i-1" (InsightStore.addInsight x InsightStore.initial)
  = InsightStore.initial.
Proof.
  intros x.
  destruct (insight_add_then_remove x "i-1" InsightStore.initial) as (H & _).
  apply H; [reflexivity | intros y []].
Defined.

(* --------------------------------------------------------------------- *)
(** ** Generating insights *)
(* --------------------------------------------------------------------- *)

Lemma array_map_exists {B} (expr : string) (l : list Js.value)
      (f : Js.value -> Js.result B) :
  Forall (fun x => exists y, f x = inr y) l ->
  exists ys, array_map expr (Js.Arr l) f = inr ys /\ List.length ys = List.length l.
Proof.
  intros H. induction H as [|x l (y & Hy) Hl (ys & IH & Hlen)].
  - exists []. split; reflexivity.
  - exists (y :: ys). simpl in *. rewrite Hy, IH. split; [reflexivity | now rewrite Hlen].
Qed.

(** X23. With at least one data source listed, [handleGenerateInsights]
    sends exactly one request, to the generate endpoint, for at most five
    insights on the selected data source, or on the first listed one when
    "all" is selected.  Whatever comes back it does not throw, raises
    exactly one notification and ends with [isGenerating] cleared; unless
    that notification is the success one, the insights shown are untouched. *)
Theorem generate_always_settles
        (date_toLocaleString : Js.value -> string) (st : Insights.State)
        (first : Js.value) (others : list Js.value) (net : FetchOutcome) :
  Insights.dataSources st = Js.Arr (first :: others) ->
  let h := Insights.handleGenerateInsights date_toLocaleString st net in
  let st' := run Insights.apply st (actions h) in
  snd h = inr tt
  /\ requests (actions h) = [Insights.generate_request (Insights.target_of st)]
  /\ (Insights.selectedDataSource st = "all" ->
      Insights.target_of st = Js.opt_prop first "id")
  /\ Insights.isGenerating st' = false
  /\ (List.length (error_toasts (actions h))
      + List.length (success_toasts (actions h)) = 1)%nat
  /\ (success_toasts (actions h) = [] ->
      st' = Insights.apply (Insights.SetIsGenerating false) st).
Proof.
  intros Hd h st'. subst st' h.
  unfold Insights.handleGenerateInsights, Insights.target_of, Insights.generate_request.
  rewrite Hd. cbn [Js.get_prop lift bind].
  replace ("length" =? "length") with true by reflexivity.
  replace (Js.strict_eq (Js.Num (Z.of_nat (List.length (first :: others)))) (Js.Num 0))
    with false by reflexivity.
  cbn [Insights.first_elem].
  destruct net as [e|[|] json].
  - cbn. destruct st. repeat split. intros ->. reflexivity.
  - destruct json as [e|data].
    + cbn. destruct st. repeat split. intros ->. reflexivity.
    + destruct (array_map "data" data
                          (Insights.transform date_toLocaleString (Js.Arr (first :: others))))
        as [e|ins] eqn:E;
        cbn -[array_map Insights.transform]; rewrite E; cbn; destruct st; repeat split;
        try discriminate; intros ->; reflexivity.
  - destruct json as [e|error].
    + cbn. destruct st. repeat split. intros ->. reflexivity.
    + destruct (Js.get_prop error "detail") as [e|detail] eqn:E;
        cbn; rewrite E; cbn; destruct st; repeat split; intros ->; reflexivity.
Qed.

Lemma generate_always_settles_witness :
  requests (actions (Insights.handleGenerateInsights
                       (fun _ => "1/1/2026") Insights.with_sources
                       (NetworkFailure (Js.ErrorExn "Failed to fetch"))))
  = [mkRequest "POST" "http://localhost:8000/api/v1/insights/generate"
               (Some (Js.Obj [("data_source_id", Js.Str "ds-1");
                              ("max_insights", Js.Num 5)]))].
Proof.
  destruct (generate_always_settles
              (fun _ => "1/1/2026") Insights.with_sources
              (Js.Obj [("id", Js.Str "ds-1"); ("name", Js.Str "Prod")])
              [Js.Obj [("id", Js.Str "ds-2"); ("name", Js.Str "Files")]]
              (NetworkFailure (Js.ErrorExn "Failed to fetch")) eq_refl)
    as (_ & H & _).
  exact H.
Defined.

(** X24. What the user is told when generation fails, with at least one
    data source listed: a rejected request gives "Failed to connect to
    API"; an error status gives the [detail] of the error body when it is
    truthy and "Failed to generate insights" otherwise, also when the body
    cannot be parsed; and a success status whose body is not an array also
    gives "Failed to connect to API", although the backend did answer. *)
Theorem generate_failure_messages
        (date_toLocaleString : Js.value -> string) (st : Insights.State)
        (first : Js.value) (others : list Js.value) :
  Insights.dataSources st = Js.Arr (first :: others) ->
  let toasts net :=
    error_toasts (actions (Insights.handleGenerateInsights date_toLocaleString st net)) in
  (forall e, toasts (NetworkFailure e) = [Js.Str "Failed to connect to API"])
  /\ (forall e, toasts (Response false (inl e)) = [Js.Str "Failed to generate insights"])
  /\ (forall fs, Js.truthy (Js.lookup "detail" fs) = true ->
                 toasts (Response false (inr (Js.Obj fs))) = [Js.lookup "detail" fs])
  /\ (forall fs, Js.truthy (Js.lookup "detail" fs) = false ->
                 toasts (Response false (inr (Js.Obj fs)))
                 = [Js.Str "Failed to generate insights"])
  /\ (forall e, toasts (Response true (inl e)) = [Js.Str "Failed to connect to API"])
  /\ (forall fs, toasts (Response true (inr (Js.Obj fs)))
                 = [Js.Str "Failed to connect to API"])
  /\ toasts (Response true (inr Js.Null)) = [Js.Str "Failed to connect to API"].
Proof.
  intros Hd toasts. subst toasts.
  unfold Insights.handleGenerateInsights. rewrite Hd. cbn [Js.get_prop lift bind].
  replace ("length" =? "length") with true by reflexivity.
  replace (Js.strict_eq (Js.Num (Z.of_nat (List.length (first :: others)))) (Js.Num 0))
    with false by reflexivity.
  repeat split; intros; cbn; try reflexivity.
  - unfold Js.or_else. now rewrite H.
  - unfold Js.or_else. now rewrite H.
Qed.

Lemma generate_failure_messages_witness :
  error_toasts (actions (Insights.handleGenerateInsights
                           (fun _ => "1/1/2026") Insights.with_sources
                           (Response true (inr (Js.Obj [("insights", Js.Arr [])])))))
  = [Js.Str "Failed to connect to API"].
Proof.
  destruct (generate_failure_messages
              (fun _ => "1/1/2026") Insights.with_sources
              (Js.Obj [("id", Js.Str "ds-1"); ("name", Js.Str "Prod")])
              [Js.Obj [("id", Js.Str "ds-2"); ("name", Js.Str "Files")]] eq_refl)
    as (_ & _ & _ & _ & _ & H & _).
  apply H.
Defined.

Lemma find_by_id_spec (l : list Js.value) (wanted : Js.value) :
  Forall (fun ds => ds <> Js.Null /\ ds <> Js.Undefined) l ->
  exists found,
    Insights.find_by_id (Js.Arr l) wanted = inr found
    /\ ((forall ds, In ds l -> forall i, Js.get_prop ds "id" = inr i ->
                                         Js.strict_eq i wanted = false) ->
        found = Js.Undefined)
    /\ (forall before ds after i,
           l = (before ++ ds :: after)%list ->
           (forall x, In x before -> forall j, Js.get_prop x "id" = inr j ->
                                               Js.strict_eq j wanted = false) ->
           Js.get_prop ds "id" = inr i -> Js.strict_eq i wanted = true ->
           found = ds).
Proof.
  intros H. induction H as [|x l [Hx1 Hx2] Hl (found & IH & Hnone & Hfirst)].
  - exists Js.Undefined. split; [reflexivity|]. split; [reflexivity|].
    intros [|b before] ds after i E; discriminate E.
  - cbn [Insights.find_by_id] in IH |- *.
    assert (Hid : exists i, Js.get_prop x "id" = inr i)
      by (destruct x; try congruence; eexists; reflexivity).
    destruct Hid as (i & Hid). rewrite Hid.
    destruct (Js.strict_eq i wanted) eqn:Ei.
    + exists x. split; [reflexivity|]. split.
      * intros Hno. specialize (Hno x (or_introl eq_refl) i Hid). congruence.
      * intros [|b before] ds after j E Hbefore Hj Hjw.
        -- now injection E as ->.
        -- injection E as -> _. specialize (Hbefore b (or_introl eq_refl) i Hid). congruence.
    + exists found. split; [exact IH|]. split.
      * intros Hno. apply Hnone. intros ds Hin. apply Hno. now right.
      * intros [|b before] ds after j E Hbefore Hj Hjw.
        -- injection E as -> _. congruence.
        -- injection E as -> ->. apply (Hfirst before ds after j eq_refl); try assumption.
           intros y Hy. apply Hbefore. now right.
Qed.

(** X25. How an item of the generate response becomes an insight, when the
    item is an object and no listed data source is [null]: the conversion
    succeeds; the type is [insight_type], else [type], else "trend"; a
    missing severity is "info", a missing or zero confidence 85, a missing
    visualization "bar", missing metrics the empty list and a missing
    creation date "Just now"; the data source shown is the name of the
    first listed source whose id is the item's [data_source_id], and
    "Unknown" when there is none or it has no name. *)
Theorem insight_item_defaults
        (date_toLocaleString : Js.value -> string)
        (sources : list Js.value) (fs : list (string * Js.value)) :
  Forall (fun ds => ds <> Js.Null /\ ds <> Js.Undefined) sources ->
  exists ins,
    Insights.transform date_toLocaleString (Js.Arr sources) (Js.Obj fs) = inr ins
    /\ Insights.id ins = Js.lookup "id" fs
    /\ Insights.title ins = Js.lookup "title" fs
    /\ Insights.type ins
       = Js.or_else (Js.or_else (Js.lookup "insight_type" fs) (Js.lookup "type" fs))
                    (Js.Str "trend")
    /\ Js.truthy (Insights.type ins) = true
    /\ (Js.truthy (Js.lookup "severity" fs) = false ->
        Insights.severity ins = Js.Str "info")
    /\ (Js.lookup "confidence" fs = Js.Undefined \/ Js.lookup "confidence" fs = Js.Num 0 ->
        Insights.confidence ins = Js.Num 85)
    /\ (Js.truthy (Js.lookup "visualization" fs) = false ->
        Insights.visualization ins = Js.Str "bar")
    /\ (Js.truthy (Js.lookup "metrics" fs) = false -> Insights.metrics ins = Js.Arr [])
    /\ (Js.truthy (Js.lookup "created_at" fs) = false ->
        Insights.createdAt ins = Js.Str "Just now")
    /\ ((forall ds, In ds sources -> forall i, Js.get_prop ds "id" = inr i ->
            Js.strict_eq i (Js.lookup "data_source_id" fs) = false) ->
        Insights.dataSource ins = Js.Str "Unknown")
    /\ (forall before ds after i n,
           sources = (before ++ ds :: after)%list ->
           (forall x, In x before -> forall j, Js.get_prop x "id" = inr j ->
                Js.strict_eq j (Js.lookup "data_source_id" fs) = false) ->
           Js.get_prop ds "id" = inr i ->
           Js.strict_eq i (Js.lookup "data_source_id" fs) = true ->
           Js.opt_prop ds "name" = Js.Str n -> n <> "" ->
           Insights.dataSource ins = Js.Str n).
Proof.
  intros Hs.
  destruct (find_by_id_spec sources (Js.lookup "data_source_id" fs) Hs)
    as (found & Ef & Hnone & Hfirst).
  unfold Insights.transform. cbn [Js.get_prop]. rewrite Ef.
  eexists. split; [reflexivity|].
  cbn [Insights.id Insights.title Insights.type Insights.severity Insights.confidence
       Insights.visualization Insights.metrics Insights.createdAt Insights.dataSource].
  split; [reflexivity|]. split; [reflexivity|]. split; [reflexivity|].
  split; [|split; [|split; [|split; [|split; [|split; [|split]]]]]].
  - unfold Js.or_else.
    destruct (Js.truthy (Js.lookup "insight_type" fs)) eqn:E1; [now rewrite E1|].
    destruct (Js.truthy (Js.lookup "type" fs)) eqn:E2; [now rewrite E2 | reflexivity].
  - intros H. unfold Js.or_else. now rewrite H.
  - intros [H|H]; rewrite H; reflexivity.
  - intros H. unfold Js.or_else. now rewrite H.
  - intros H. unfold Js.or_else. now rewrite H.
  - intros H. now rewrite H.
  - intros Hno. rewrite (Hnone Hno). reflexivity.
  - intros before ds after i n E Hbefore Hi Hw Hn Hne.
    rewrite (Hfirst before ds after i E Hbefore Hi Hw), Hn.
    unfold Js.or_else. now rewrite (nonempty_truthy n Hne).
Qed.

Lemma insight_item_defaults_witness :
  exists ins,
    Insights.transform (fun _ => "1/1/2026") Insights.two_sources
                       (Js.Obj [("id", Js.Str "i-1"); ("data_source_id", Js.Str "ds-2")])
    = inr ins
    /\ Insights.dataSource ins = Js.Str "Files".
Proof.
  destruct (insight_item_defaults
              (fun _ => "1/1/2026")
              [Js.Obj [("id", Js.Str "ds-1"); ("name", Js.Str "Prod")];
               Js.Obj [("id", Js.Str "ds-2"); ("name", Js.Str "Files")]]
              [("id", Js.Str "i-1"); ("data_source_id", Js.Str "ds-2")])
    as (ins & E & H).
  - repeat constructor; discriminate.
  - exists ins. split; [exact E|].
    decompose [and] H.
    match goal with
    | Hf : forall before ds after i n, _ |- _ =>
        apply (Hf [Js.Obj [("id", Js.Str "ds-1"); ("name", Js.Str "Prod")]]
                  (Js.Obj [("id", Js.Str "ds-2"); ("name", Js.Str "Files")])
                  [] (Js.Str "ds-2") "Files")
    end; try reflexivity; try discriminate.
    intros x [<- | []] j [= <-]. reflexivity.
Defined.

(** X26. A successful generation replaces the insights shown: when the
    response is a success whose body is an array of objects (and no listed
    data source is [null]), the page ends with exactly one insight per item
    of the response, whatever insights it showed before, and reports their
    number in the success notification. *)
Theorem generate_replaces_insights
        (date_toLocaleString : Js.value -> string) (st : Insights.State)
        (first : Js.value) (others items : list Js.value) :
  Insights.dataSources st = Js.Arr (first :: others) ->
  Forall (fun ds => ds <> Js.Null /\ ds <> Js.Undefined) (first :: others) ->
  Forall (fun item => exists fs, item = Js.Obj fs) items ->
  let h := Insights.handleGenerateInsights date_toLocaleString st
                                           (Response true (inr (Js.Arr items))) in
  let st' := run Insights.apply st (actions h) in
  array_map "data" (Js.Arr items)
            (Insights.transform date_toLocaleString (Insights.dataSources st))
  = inr (Insights.insights st')
  /\ List.length (Insights.insights st') = List.length items
  /\ success_toasts (actions h)
     = ["Generated " ++ Js.string_of_Z (Z.of_nat (List.length items)) ++ " insights!"]
  /\ error_toasts (actions h) = []
  /\ Insights.isGenerating st' = false.
Proof.
  intros Hd Hs Hitems h st'.
  destruct (array_map_exists
              "data" items
              (Insights.transform date_toLocaleString (Js.Arr (first :: others))))
    as (ins & E & Hlen).
  { eapply Forall_impl; [|exact Hitems]. intros item (fs & ->).
    destruct (find_by_id_spec (first :: others) (Js.lookup "data_source_id" fs) Hs)
      as (found & Ef & _).
    unfold Insights.transform. cbn [Js.get_prop]. rewrite Ef. eauto. }
  subst st' h. unfold Insights.handleGenerateInsights. rewrite Hd.
  cbn [Js.get_prop lift bind].
  replace ("length" =? "length") with true by reflexivity.
  replace (Js.strict_eq (Js.Num (Z.of_nat (List.length (first :: others)))) (Js.Num 0))
    with false by reflexivity.
  cbn -[array_map Insights.transform]. rewrite E. cbn -[array_map Insights.transform].
  rewrite Hlen. repeat split.
Qed.

Lemma generate_replaces_insights_witness :
  List.length
    (Insights.insights
       (run Insights.apply Insights.with_sources
            (actions (Insights.handleGenerateInsights
                        (fun _ => "1/1/2026") Insights.with_sources
                        (Response true
                                  (inr (Js.Arr [Js.Obj [("id", Js.Str "i-1")];
                                                Js.Obj [("id", Js.Str "i-2")]])))))))
  = 2%nat.
Proof.
  destruct (generate_replaces_insights
              (fun _ => "1/1/2026") Insights.with_sources
              (Js.Obj [("id", Js.Str "ds-1"); ("name", Js.Str "Prod")])
              [Js.Obj [("id", Js.Str "ds-2"); ("name", Js.Str "Files")]]
              [Js.Obj [("id", Js.Str "i-1")]; Js.Obj [("id", Js.Str "i-2")]])
    as (_ & H & _).
  - reflexivity.
  - repeat constructor; discriminate.
  - repeat constructor; eexists; reflexivity.
  - exact H.
Defined.

Lemma strict_eq_string (v : Js.value) (s : string) :
  Js.strict_eq v (Js.Str s) = true <-> v = Js.Str s.
Proof.
  split.
  - destruct v; cbn; try discriminate. intros H. apply String.eqb_eq in H. now subst.
  - intros ->. cbn. apply String.eqb_refl.
Qed.

(** X27. The type filter of the insights page shows, under "all", every
    insight, and under any other type exactly the insights whose type is
    that string.  When the chosen type matches none of the insights the
    page falls back to the "no insights yet" card with its generate button
    (data sources being listed), although insights exist. *)
Theorem filter_without_match_shows_empty_state
        (StringToNumber_positive : string -> bool) (st : Insights.State)
        (first : Js.value) (others : list Js.value) :
  Insights.dataSources st = Js.Arr (first :: others) ->
  Insights.isLoading st = false ->
  (forall x, In x (Insights.filteredInsights st) <->
             In x (Insights.insights st)
             /\ (Insights.selectedType st = "all"
                 \/ Insights.type x = Js.Str (Insights.selectedType st)))
  /\ (Insights.selectedType st <> "all" ->
      (forall x, In x (Insights.insights st) ->
                 Insights.type x <> Js.Str (Insights.selectedType st)) ->
      Insights.filteredInsights st = []
      /\ Insights.render_body StringToNumber_positive st
         = inr (Insights.EmptyState Insights.click_generate_message
                                    (Insights.GenerateInsightsButton
                                       (Insights.isGenerating st)))).
Proof.
  intros Hd Hl. split.
  - intros x. unfold Insights.filteredInsights.
    destruct (Insights.selectedType st =? "all") eqn:E.
    + apply String.eqb_eq in E. tauto.
    + apply String.eqb_neq in E. rewrite filter_In, strict_eq_string. tauto.
  - intros Hne Hno.
    assert (E : Insights.filteredInsights st = []).
    { unfold Insights.filteredInsights. apply String.eqb_neq in Hne. rewrite Hne.
      induction (Insights.insights st) as [|x l IH]; [reflexivity|].
      simpl. destruct (Js.strict_eq (Insights.type x) (Js.Str (Insights.selectedType st)))
        eqn:Ex.
      - apply strict_eq_string in Ex. exfalso. apply (Hno x); [now left | exact Ex].
      - apply IH. intros y Hy. apply Hno. now right. }
    split; [exact E|].
    unfold Insights.render_body. rewrite Hl, E, Hd. reflexivity.
Qed.

Lemma filter_without_match_shows_empty_state_witness :
  let shown := Insights.mkInsight (Js.Str "i-1") (Js.Str "Growth") (Js.Str "")
                                  (Js.Str "trend") (Js.Str "info") (Js.Str "Prod")
                                  (Js.Num 85) (Js.Str "Just now") (Js.Str "bar")
                                  (Js.Arr []) in
  let st := Insights.mkState "anomaly" false [shown] Insights.two_sources "all" false in
  Insights.render_body (fun _ => false) st
  = inr (Insights.EmptyState Insights.click_generate_message
                             (Insights.GenerateInsightsButton false)).
Proof.
  intros shown st.
  destruct (filter_without_match_shows_empty_state
              (fun _ => false) st
              (Js.Obj [("id", Js.Str "ds-1"); ("name", Js.Str "Prod")])
              [Js.Obj [("id", Js.Str "ds-2"); ("name", Js.Str "Files")]]
              eq_refl eq_refl) as (_ & H).
  apply H.
  - discriminate.
  - intros x [<- | []]. discriminate.
Defined.

(* --------------------------------------------------------------------- *)
(** ** The chat page *)
(* --------------------------------------------------------------------- *)

(** X28. Sending is refused exactly when the send button is disabled for
    lack of input or of a data source: with a blank input or no data
    source selected [handleSend] does nothing at all and the button is
    disabled, and whenever the button is enabled the handler does append
    the user's message. *)
Theorem send_is_refused_when_blank (st : Chat.State) (sent answered : Z) :
  (Js.all_whitespace (Chat.input st) = true \/ Chat.selectedDataSource st = "" ->
   Chat.handleSend st sent answered = ([], inr tt)
   /\ Chat.send_disabled st = true)
  /\ (Chat.send_disabled st = false ->
      hd_error (actions (Chat.handleSend st sent answered))
      = Some (Update (Chat.AppendMessage (Chat.userMessage st sent)))
      /\ Chat.isLoading st = false).
Proof.
  unfold Chat.handleSend, Chat.send_disabled. split.
  - intros [H|H].
    + apply trim_empty_iff in H. rewrite H. split; reflexivity.
    + rewrite H. cbn. rewrite orb_true_r. split; reflexivity.
  - intros H. apply orb_false_iff in H as [H1 H2]. rewrite H1. split; [reflexivity|exact H2].
Qed.

Lemma send_is_refused_when_blank_witness :
  Chat.handleSend (Chat.mkState [] (Js.nbsp ++ " ") false "1") 10 20 = ([], inr tt).
Proof.
  destruct (send_is_refused_when_blank (Chat.mkState [] (Js.nbsp ++ " ") false "1") 10 20)
    as (H & _).
  apply H. left. reflexivity.
Defined.

(** X29. A message that passes the guard: while the simulated answer is
    awaited the transcript already ends with the user's message, carrying
    the input exactly as typed (not trimmed), the input box is empty and the
    loading indicator is on; at the end the transcript is the earlier
    transcript followed by the user's message and the answer, in that
    order, and loading is off.  Nothing is sent to the backend and no
    notification is raised. *)
Theorem send_appends_question_and_answer (st : Chat.State) (sent answered : Z) :
  Js.trim (Chat.input st) <> "" -> Chat.selectedDataSource st <> "" ->
  let h := Chat.handleSend st sent answered in
  let waiting := run Chat.apply st (firstn 3 (actions h)) in
  let st' := run Chat.apply st (actions h) in
  waiting = Chat.mkState (Chat.messages st ++ [Chat.userMessage st sent]) "" true
                         (Chat.selectedDataSource st)
  /\ nth_error (actions h) 3 = Some (Sleep 1500)
  /\ st' = Chat.mkState (Chat.messages st
                         ++ [Chat.userMessage st sent; Chat.assistantMessage st answered])
                        "" false (Chat.selectedDataSource st)
  /\ Chat.content (Chat.userMessage st sent) = Chat.input st
  /\ firstn (List.length (Chat.messages st)) (Chat.messages st') = Chat.messages st
  /\ requests (actions h) = []
  /\ error_toasts (actions h) = [] /\ success_toasts (actions h) = []
  /\ snd h = inr tt.
Proof.
  intros Hi Hs h waiting st'. subst waiting st' h. unfold Chat.handleSend.
  rewrite (nonempty_truthy _ Hi), (nonempty_truthy _ Hs). cbn.
  rewrite <- app_assoc. cbn. repeat split.
  rewrite firstn_app, Nat.sub_diag, firstn_all. cbn. apply app_nil_r.
Qed.

Lemma send_appends_question_and_answer_witness :
  map Chat.content
      (Chat.messages (run Chat.apply Chat.asking
                          (actions (Chat.handleSend Chat.asking 10 20))))
  = [" top customers? "; Chat.answer_text " top customers? "].
Proof.
  destruct (send_appends_question_and_answer Chat.asking 10 20) as (_ & _ & H & _).
  - discriminate.
  - discriminate.
  - rewrite H. reflexivity.
Defined.

(** X30. The suggestions of the empty chat.  They are offered exactly
    while the transcript is empty and a data source is selected; without a
    data source the page asks to select one.  Each suggested question is
    non-blank, so clicking one fills the input, enables the send button
    (unless an answer is pending) and, once sent, puts that very question
    into the transcript. *)
Theorem suggestion_can_be_sent (st : Chat.State) (question : string) (sent answered : Z) :
  In question Chat.suggestedQuestions ->
  Chat.selectedDataSource st <> "" ->
  let st1 := run Chat.apply st (actions (Chat.handleSuggestionClick question)) in
  let st2 := run Chat.apply st1 (actions (Chat.handleSend st1 sent answered)) in
  Chat.input st1 = question
  /\ Chat.messages st1 = Chat.messages st
  /\ Chat.send_disabled st1 = Chat.isLoading st
  /\ nth_error (Chat.messages st2) (List.length (Chat.messages st))
     = Some (Chat.mkMessage (Js.string_of_Z sent) Chat.user question sent None None)
  /\ (Chat.messages st = [] ->
      Chat.render_empty st = Some (Chat.Suggestions Chat.suggestedQuestions)
      /\ Chat.render_empty st2 = None)
  /\ Chat.render_empty (Chat.mkState [] (Chat.input st) (Chat.isLoading st) "")
     = Some Chat.SelectSourceFirst.
Proof.
  intros Hq Hs st1 st2.
  assert (Hne : Js.trim question <> "").
  { simpl in Hq. repeat (destruct Hq as [<-|Hq]; [discriminate|]). destruct Hq. }
  assert (E1 : st1 = Chat.mkState (Chat.messages st) question (Chat.isLoading st)
                                  (Chat.selectedDataSource st)) by reflexivity.
  assert (E2 : Chat.messages st2
               = (Chat.messages st ++ [Chat.userMessage st1 sent;
                                       Chat.assistantMessage st1 answered])%list).
  { subst st2. unfold Chat.handleSend. rewrite E1. cbn [Chat.input Chat.selectedDataSource].
    rewrite (nonempty_truthy _ Hne), (nonempty_truthy _ Hs). cbn.
    now rewrite <- app_assoc. }
  split; [reflexivity|]. split; [reflexivity|]. split; [|split; [|split]].
  - rewrite E1. unfold Chat.send_disabled. cbn [Chat.input Chat.selectedDataSource Chat.isLoading].
    now rewrite (nonempty_truthy _ Hne), (nonempty_truthy _ Hs).
  - rewrite E2, nth_error_app2, Nat.sub_diag by lia. rewrite E1. reflexivity.
  - intros Hm. unfold Chat.render_empty. rewrite E2, Hm, (nonempty_truthy _ Hs).
    split; reflexivity.
  - reflexivity.
Qed.

Lemma suggestion_can_be_sent_witness :
  Chat.input (run Chat.apply (Chat.mkState [] "" false "2")
                  (actions (Chat.handleSuggestionClick
                              "Show me the monthly sales trend for 2024")))
  = "Show me the monthly sales trend for 2024".
Proof.
  destruct (suggestion_can_be_sent
              (Chat.mkState [] "" false "2")
              "Show me the monthly sales trend for 2024" 10 20) as (H & _).
  - simpl. tauto.
  - discriminate.
  - exact H.
Defined.
